(** * dependencies-analyzer: the report pipeline of [index.js]

    The script walks a directory tree for [package.json] manifests and, for
    each of them, joins four sources by dependency name: the manifest's own
    declarations, the output of the [libyear] command, the result of
    [npm-check], and the npm registry's metadata (from which it derives, for
    each Node major, the last published version whose [engines.node] range
    intersects it).  Two revisions of the script exist: [src/index.js] (three
    runtime columns) and [src/unnamed/part_000] (four runtime columns and a
    derived "Node upgrade blocking" column).  They are embedded below as the
    modules [Newer] and [Older]; what the two share comes first.

    The embedding is shallow.  JavaScript values that arrive from [JSON.parse]
    or from a library are kept dynamically typed ([JsValue]), because the
    script itself tests them dynamically ([!x], [x || d], [x?.p],
    [Array.isArray]).  Exceptions and console output are the two effects the
    script has; they are threaded through the monad [M].  Everything outside
    the script (file system, child process, HTTP, the [semver] and [path]
    libraries) is a field of [World] or [Libs]. *)

From Stdlib Require Import ZArith QArith Qabs List String Ascii Bool Lia.
Import ListNotations.

Open Scope string_scope.
Open Scope list_scope.

(** ** JavaScript values *)

(** A Number is NaN, an infinity, or a finite value.  A finite double is a
    rational number, and [Number.prototype.toFixed] is specified on that
    mathematical value, so finite Numbers are carried as rationals. *)
Inductive JsNumber : Type :=
| NaN
| Infinity (negative : bool)
| Finite (q : Q).

(** Objects are kept as their own enumerable properties in [Object.keys]
    order; [JSON.parse] builds no other kind.  A string is the sequence of
    its code units. *)
#[local] Set Warnings "-register-all".
Inductive JsValue : Type :=
| JUndefined
| JNull
| JBool (b : bool)
| JNum (n : JsNumber)
| JStr (s : string)
| JArr (items : list JsValue)
| JObj (props : list (string * JsValue)).
#[local] Set Warnings "register-all".

(** ToBoolean. *)
Definition truthy (v : JsValue) : bool :=
  match v with
  | JUndefined | JNull => false
  | JBool b => b
  | JNum NaN => false
  | JNum (Infinity _) => true
  | JNum (Finite q) => negb (Qnum q =? 0)%Z
  | JStr s => negb (s =? "")
  | JArr _ | JObj _ => true
  end.

(** [v === undefined || v === null]. *)
Definition nullish (v : JsValue) : bool :=
  match v with
  | JUndefined | JNull => true
  | _ => false
  end.

(** [a || b]. *)
Definition or_else (a b : JsValue) : JsValue := if truthy a then a else b.

(** [v === s] for a string [s]: strict equality never converts. *)
Definition strict_eq_string (v : JsValue) (s : string) : bool :=
  match v with
  | JStr t => t =? s
  | _ => false
  end.

Definition isArray (v : JsValue) : bool :=
  match v with
  | JArr _ => true
  | _ => false
  end.

(** *** Decimal numerals *)

Definition digit_char (d : Z) : ascii := ascii_of_nat (48 + Z.to_nat d).

Fixpoint decimal_digits (fuel : nat) (n : Z) (acc : string) : string :=
  match fuel with
  | O => acc
  | S fuel' =>
      let acc' := String (digit_char (n mod 10)) acc in
      if (n / 10 =? 0)%Z then acc' else decimal_digits fuel' (n / 10) acc'
  end.

(** The decimal numeral of a non-negative integer, without leading zeros. *)
Definition decimal (n : Z) : string :=
  decimal_digits (S (Z.to_nat (Z.log2 n))) n "".

Definition index_key (i : nat) : string := decimal (Z.of_nat i).

(** *** Property access *)

Fixpoint assoc (k : string) (props : list (string * JsValue)) : option JsValue :=
  match props with
  | [] => None
  | (k', v) :: rest => if k' =? k then Some v else assoc k rest
  end.

Fixpoint item_at (k : string) (i : nat) (items : list JsValue) : option JsValue :=
  match items with
  | [] => None
  | v :: rest => if index_key i =? k then Some v else item_at k (S i) rest
  end.

Fixpoint char_at (k : string) (i : nat) (s : string) : option JsValue :=
  match s with
  | EmptyString => None
  | String c rest =>
      if index_key i =? k then Some (JStr (String c EmptyString))
      else char_at k (S i) rest
  end.

Definition of_option (o : option JsValue) : JsValue :=
  match o with
  | Some v => v
  | None => JUndefined
  end.

Definition JInt (n : nat) : JsValue := JNum (Finite (inject_Z (Z.of_nat n))).

(** [v?.k]: the value of property [k], [undefined] when [v] is nullish or has
    no such property.  Only own properties, indices and [length] are looked
    up: none of the names the script reads ([versions], [engines], [node],
    [dependency], [moduleName], [available], [drift], ...) is a member of a
    built-in prototype, and its computed keys come from [Object.keys]. *)
Definition prop_of (v : JsValue) (k : string) : JsValue :=
  match v with
  | JObj props => of_option (assoc k props)
  | JArr items =>
      if k =? "length" then JInt (List.length items)
      else of_option (item_at k 0 items)
  | JStr s =>
      if k =? "length" then JInt (String.length s)
      else of_option (char_at k 0 s)
  | _ => JUndefined
  end.

(** ** Effects: exceptions and the console *)

Inductive JsError : Type :=
| TypeError (msg : string)
| SyntaxError (msg : string)
| HostError (msg : string)
| ProcessExit (code : Z).

Inductive Result (A : Type) : Type :=
| Ok (a : A)
| Throw (e : JsError).

Arguments Ok {A} a.
Arguments Throw {A} e.

(** One constructor per [console.log] / [console.error] call of the script,
    carrying the values its message interpolates. *)
Inductive LogLine : Type :=
| LogStarting
| ErrDirectoryNotFound (rootDir : string)
| LogFile (i n : nat) (file : string)
| LogAnalyzing
| LogRunningLibyear
| ErrLibyearExecution (dirPath : string) (error : JsError)
| ErrLibyearStderr (stderr : string)
| LogRunningNpmCheck
| ErrNpmCheck (dirPath : string) (error : JsError)
| LogRunningNodeCompatibility
| ErrComparingVersions (engineRange : JsValue) (nodeVersionRange : string)
                       (error : JsError)
| ErrNoValidLibyearData (file : string)
| LogCsvWritten
| LogCompleted.

(** A computation yields the lines it printed and either a value or the
    exception it threw. *)
Definition M (A : Type) : Type := (list LogLine * Result A)%type.

Definition ret {A} (a : A) : M A := ([], Ok a).
Definition throw {A} (e : JsError) : M A := ([], Throw e).
Definition console (l : LogLine) : M unit := ([l], Ok tt).
Definition lift {A} (r : Result A) : M A := ([], r).

Definition bind {A B} (m : M A) (k : A -> M B) : M B :=
  match m with
  | (out, Ok a) => let (out', r) := k a in (out ++ out', r)
  | (out, Throw e) => (out, Throw e)
  end.

(** [try { m } catch (error) { handler error }]. *)
Definition try_catch {A} (m : M A) (handler : JsError -> M A) : M A :=
  match m with
  | (out, Ok a) => (out, Ok a)
  | (out, Throw e) => let (out', r) := handler e in (out ++ out', r)
  end.

Definition outcome {A} (m : M A) : Result A := snd m.

Declare Scope js_scope.
Delimit Scope js_scope with js.
Notation "x <- m ;; k" := (bind m (fun x => k))
  (at level 61, m at next level, right associativity) : js_scope.
Notation "m ;;; k" := (bind m (fun _ => k))
  (at level 61, right associativity) : js_scope.
Open Scope js_scope.

(** [v.k]: reading a property of [undefined] or [null] is a TypeError. *)
Definition get_prop (v : JsValue) (k : string) : M JsValue :=
  if nullish v then throw (TypeError "Cannot read properties of undefined or null")
  else ret (prop_of v k).

(** [Object.keys(v)]. *)
Definition Object_keys (v : JsValue) : M (list string) :=
  match v with
  | JUndefined | JNull =>
      throw (TypeError "Cannot convert undefined or null to object")
  | JObj props => ret (map fst props)
  | JArr items => ret (map index_key (seq 0 (List.length items)))
  | JStr s => ret (map index_key (seq 0 (String.length s)))
  | JBool _ | JNum _ => ret []
  end.

(** [for (const x of xs) { ys.push(await f(x)) }] and [xs.forEach]. *)
Fixpoint mapM {A B} (f : A -> M B) (xs : list A) : M (list B) :=
  match xs with
  | [] => ret []
  | x :: rest => y <- f x ;; ys <- mapM f rest ;; ret (y :: ys)
  end.

(** [xs.filter(p)]. *)
Fixpoint filterM {A} (p : A -> M bool) (xs : list A) : M (list A) :=
  match xs with
  | [] => ret []
  | x :: rest =>
      keep <- p x ;; ys <- filterM p rest ;;
      ret (if keep then x :: ys else ys)
  end.

Fixpoint find_item (p : JsValue -> M bool) (items : list JsValue) : M JsValue :=
  match items with
  | [] => ret JUndefined
  | v :: rest => hit <- p v ;; if hit then ret v else find_item p rest
  end.

(** [arr.find(p)]: only arrays have the method. *)
Definition Array_find (arr : JsValue) (p : JsValue -> M bool) : M JsValue :=
  match arr with
  | JArr items => find_item p items
  | _ => throw (TypeError "find is not a function")
  end.

(** *** [Number.prototype.toFixed(2)] and [String.prototype.replace] *)

(** The integer nearest to [100 * |q|], the larger one on a tie. *)
Definition hundredths (q : Q) : Z :=
  (200 * Z.abs (Qnum q) + Zpos (Qden q)) / (2 * Zpos (Qden q)).

Definition fixed2 (n : Z) (sep : string) : string :=
  decimal (n / 100) ++ sep
    ++ String (digit_char (n / 10 mod 10)) (String (digit_char (n mod 10)) "").

Definition Qabs_lt_1e21 (q : Q) : bool :=
  (Z.abs (Qnum q) <? 10 ^ 21 * Zpos (Qden q))%Z.

Definition sign_of (q : Q) : string := if (Qnum q <? 0)%Z then "-" else "".

(** [x.toFixed(2)].  ECMAScript: a non-finite [x] prints as [String(x)]; a
    negative [x] prints its sign and then [-x]; from [10^21] on the digits are
    those of [String(x)], which [large_toString] supplies; below, the digits
    are those of the nearest integer [n] to [100 * x] (the larger on a tie),
    with a point before the last two. *)
Definition toFixed2 (large_toString : Q -> string) (x : JsNumber) : string :=
  match x with
  | NaN => "NaN"
  | Infinity negative => if negative then "-Infinity" else "Infinity"
  | Finite q =>
      sign_of q ++
      (if Qabs_lt_1e21 q then fixed2 (hundredths q) "."
       else large_toString (Qabs q))
  end.

(** [s.replace('.', ',')]: a string pattern replaces its first occurrence. *)
Fixpoint replace_dot (s : string) : string :=
  match s with
  | EmptyString => EmptyString
  | String c rest =>
      if (c =? ".")%char then String "," rest else String c (replace_dot rest)
  end.

(** ** The script's surroundings *)

(** The library functions the script calls and does not define.
    [semver_intersects] is [semver.intersects], which returns a boolean or
    throws on a range it cannot parse; [path_dirname] and [path_basename]
    are those of Node's [path]; [Number_toString] is [String(x)] for a finite
    [x >= 10^21]. *)
Record Libs : Type := {
  semver_intersects : JsValue -> string -> Result bool;
  path_dirname : string -> string;
  path_basename : string -> string;
  Number_toString : Q -> string
}.

(** What [exec] hands to its callback: [error] ([None] for [null]),
    [stderr], and [stdout] as [JSON.parse] reads it. *)
Record ExecOutcome : Type := {
  exec_error : option JsError;
  exec_stderr : string;
  exec_stdout_json : Result JsValue
}.

(** The state of the machine and of the network during one run.
    [located] is the list [findPackageJsonFiles] returns for a directory (the
    walk itself is embedded apart, over a directory tree: see the manifest
    locator below); [read_manifest] is [JSON.parse(fs.readFileSync(path, 'utf8'))];
    [npmCheck_packages] is [(await npmCheck({cwd})).get('packages')];
    [axios_get] is [(await axios.get(url)).data]. *)
Record World : Type := {
  argv_2 : option string;
  fs_existsSync : string -> bool;
  located : string -> Result (list string);
  read_manifest : string -> Result JsValue;
  exec_libyear : string -> ExecOutcome;
  npmCheck_packages : string -> Result JsValue;
  axios_get : string -> Result JsValue
}.

(** ** Data the script builds *)

(** One entry of [analyzeDependencies]' result. *)
Record Dependency : Type := {
  dependency : string;
  type : string;
  version : JsValue;
  module : string
}.

(** A report row is the object literal [formatDependencyResult] returns; the
    CSV writer reads it by column id, so it is kept as its properties in
    order. *)
Definition Row : Type := list (string * JsValue).

Definition field (r : Row) (id : string) : JsValue := of_option (assoc id r).

Definition has_field (r : Row) (id : string) : bool :=
  existsb (fun kv => fst kv =? id) r.

(** The file [generateCsv] writes. *)
Record CsvFile : Type := {
  csv_path : string;
  csv_header : list (string * string);
  csv_fieldDelimiter : string;
  csv_records : list Row
}.

(** ** Functions common to both revisions *)

Section Script.

Variable L : Libs.
Variable W : World.

(** [semver.intersects] is the only call taken to throw here.  The message
    of the [catch] block interpolates [engineRange]: that conversion to a
    string is assumed not to throw.  (It does for an object whose own
    [toString] is not callable, as a registry answer could hold; the
    exception would then leave [isCompatibleWithNodeVersion].) *)
Definition isCompatibleWithNodeVersion
    (engineRange : JsValue) (nodeVersionRange : string) : M bool :=
  if negb (truthy engineRange) then ret false
  else
    try_catch (lift (semver_intersects L engineRange nodeVersionRange))
      (fun error =>
         console (ErrComparingVersions engineRange nodeVersionRange error) ;;;
         ret false).

(** [versions[version]?.engines?.node]. *)
Definition engines_node (versions : JsValue) (version : string) : M JsValue :=
  meta <- get_prop versions version ;;
  ret (prop_of (prop_of meta "engines") "node").

(** The [compatibleVersions] array of [findLatestCompatibleVersion]. *)
Definition compatibleVersions
    (versions : JsValue) (nodeVersion : string) : M (list string) :=
  keys <- Object_keys versions ;;
  filterM (fun version =>
             engines <- engines_node versions version ;;
             isCompatibleWithNodeVersion engines nodeVersion)
          keys.

Definition findLatestCompatibleVersion
    (npmData : JsValue) (nodeVersion : string) : M string :=
  if negb (truthy npmData) then ret "Not informed"
  else
    versions <- get_prop npmData "versions" ;;
    compatible <- compatibleVersions versions nodeVersion ;;
    if (0 <? List.length compatible)%nat
    then ret (nth (List.length compatible - 1) compatible "")
    else ret "Not informed".

Definition registry_url (packageName : string) : string :=
  "https://registry.npmjs.org/" ++ packageName.

Definition fetchNpmPackageInfo (packageName : string) : M JsValue :=
  try_catch (lift (axios_get W (registry_url packageName)))
    (fun _ => ret (JStr "N/A")).

Definition runLibyearAnalysis (packageJsonPath : string) : M JsValue :=
  console LogRunningLibyear ;;;
  let dirPath := path_dirname L packageJsonPath in
  let o := exec_libyear W dirPath in
  match exec_error o with
  | Some error =>
      console (ErrLibyearExecution dirPath error) ;;; throw error
  | None =>
      if negb (exec_stderr o =? "") then
        console (ErrLibyearStderr (exec_stderr o)) ;;;
        ret (JStr (exec_stderr o))
      else lift (exec_stdout_json o)
  end.

Definition runNpmCheck (packageJsonPath : string) : M JsValue :=
  console LogRunningNpmCheck ;;;
  let dirPath := path_dirname L packageJsonPath in
  try_catch (lift (npmCheck_packages W dirPath))
    (fun error => console (ErrNpmCheck dirPath error) ;;; ret (JArr [])).

(** The [module] constant of [analyzeDependencies]. *)
Definition moduleLabel (packageJsonPath rootDirName : string) : string :=
  let dirName := path_basename L (path_dirname L packageJsonPath) in
  if dirName =? rootDirName then dirName else rootDirName ++ "/" ++ dirName.

(** [Object.keys(deps).forEach(dep => dependencies.push({...}))]. *)
Definition declarations
    (deps : JsValue) (type module : string) : M (list Dependency) :=
  keys <- Object_keys deps ;;
  mapM (fun dep =>
          version <- get_prop deps dep ;;
          ret {| dependency := dep; type := type;
                 version := version; module := module |})
       keys.

Definition analyzeDependencies
    (packageJsonPath rootDirName : string) : M (list Dependency) :=
  console LogAnalyzing ;;;
  packageJson <- lift (read_manifest W packageJsonPath) ;;
  dependencies <- get_prop packageJson "dependencies" ;;
  let productionDeps := or_else dependencies (JObj []) in
  devDependencies <- get_prop packageJson "devDependencies" ;;
  let devDeps := or_else devDependencies (JObj []) in
  let module := moduleLabel packageJsonPath rootDirName in
  production <- declarations productionDeps "production" module ;;
  development <- declarations devDeps "development" module ;;
  ret (production ++ development).

(** [value.toFixed] exists on Numbers only; calling it on anything else that
    is neither [undefined] nor [null] is a TypeError. *)
Definition formatDecimal (value : JsValue) : M JsValue :=
  if negb (nullish value) then
    match value with
    | JNum x => ret (JStr (replace_dot (toFixed2 (Number_toString L) x)))
    | _ => throw (TypeError "value.toFixed is not a function")
    end
  else ret (JStr "Unknown").

End Script.

(** [result => result.dependency === name] and
    [result => result.moduleName === name], the callbacks of the two joins
    over JSON data. *)
Definition named (key name : string) (result : JsValue) : M bool :=
  v <- get_prop result key ;; ret (strict_eq_string v name).

(** [for (const x of xs) { state = step(state, x) }]. *)
Fixpoint foldM {S A} (step : S -> A -> M S) (xs : list A) (state : S) : M S :=
  match xs with
  | [] => ret state
  | x :: rest => state' <- step state x ;; foldM step rest state'
  end.

(** [process.argv[2] || './']. *)
Definition rootDir_of (W : World) : string :=
  match argv_2 W with
  | Some dir => if dir =? "" then "./" else dir
  | None => "./"
  end.

(** ** [src/index.js]: Node 16, 18 and 20 *)

Module Newer.

(** What [findNodeCompatibility] returns. *)
Record NodeCompatibility : Type := {
  node16Version : string;
  node18Version : string;
  node20Version : string
}.

(** [{ dependency: dep.dependency, ...nodeCompatibility }]. *)
Record NodeCompatibilityResult : Type := {
  for_dependency : string;
  compatibility : NodeCompatibility
}.

Definition header : list (string * string) :=
  [ ("module", "Module"); ("dependency", "Dependency"); ("type", "Type");
    ("currentVersion", "Current version");
    ("latestVersion", "Libyear latest version");
    ("npmLatest", "NPM latest version"); ("npmWanted", "Wanted version");
    ("easyUpgrade", "Easy upgrade");
    ("node16Version", "Node 16"); ("node18Version", "Node 18");
    ("node20Version", "Node 20");
    ("unused", "Unused"); ("drift", "Drift"); ("pulse", "Pulse");
    ("releases", "Releases"); ("major", "Major"); ("minor", "Minor");
    ("patch", "Patch") ].

Section Script.

Variable L : Libs.
Variable W : World.

Definition formatDependencyResult
    (dep : Dependency) (libyearDepResult npmCheckResult : JsValue)
    (node16Version node18Version node20Version : string) : M Row :=
  let npmCheckData := or_else npmCheckResult (JObj []) in
  latest <- get_prop npmCheckData "latest" ;;
  packageWanted <- get_prop npmCheckData "packageWanted" ;;
  easyUpgrade <- get_prop npmCheckData "easyUpgrade" ;;
  unused <- get_prop npmCheckData "unused" ;;
  drift <- formatDecimal L (prop_of libyearDepResult "drift") ;;
  pulse <- formatDecimal L (prop_of libyearDepResult "pulse") ;;
  ret [ ("module", JStr (module dep));
        ("dependency", JStr (dependency dep));
        ("type", JStr (type dep));
        ("currentVersion", version dep);
        ("latestVersion",
          or_else (prop_of libyearDepResult "available") (JStr "Unknown"));
        ("npmLatest", or_else latest (JStr "Unknown"));
        ("npmWanted", or_else packageWanted (JStr "Unknown"));
        ("easyUpgrade", or_else easyUpgrade (JBool false));
        ("node16Version", JStr node16Version);
        ("node18Version", JStr node18Version);
        ("node20Version", JStr node20Version);
        ("unused", or_else unused (JBool false));
        ("drift", drift);
        ("pulse", pulse);
        ("releases", or_else (prop_of libyearDepResult "releases") (JStr "0"));
        ("major", or_else (prop_of libyearDepResult "major") (JStr "0"));
        ("minor", or_else (prop_of libyearDepResult "minor") (JStr "0"));
        ("patch", or_else (prop_of libyearDepResult "patch") (JStr "0")) ].

(** What the script hands to the CSV writer.  The write itself is assumed
    to succeed: [writeRecords] has no failure path here, where the script
    would let its rejection end the run. *)
Definition generateCsv (data : list Row) (rootDirName : string) : M CsvFile :=
  let file := {| csv_path := "analysis-result-" ++ rootDirName ++ ".csv";
                 csv_header := header;
                 csv_fieldDelimiter := ";";
                 csv_records := data |} in
  console LogCsvWritten ;;; ret file.

Definition findNodeCompatibility (dependency : string) : M NodeCompatibility :=
  npmData <- fetchNpmPackageInfo W dependency ;;
  if negb (truthy npmData) || strict_eq_string npmData "N/A" then
    ret {| node16Version := "N/A"; node18Version := "N/A";
           node20Version := "N/A" |}
  else
    node16Version <- findLatestCompatibleVersion L npmData "^16.0.0" ;;
    node18Version <- findLatestCompatibleVersion L npmData "^18.0.0" ;;
    node20Version <- findLatestCompatibleVersion L npmData "^20.0.0" ;;
    ret {| node16Version := node16Version; node18Version := node18Version;
           node20Version := node20Version |}.

Definition runNodeCompatibility
    (dependencies : list Dependency) : M (list NodeCompatibilityResult) :=
  console LogRunningNodeCompatibility ;;;
  mapM (fun dep =>
          nodeCompatibility <- findNodeCompatibility (dependency dep) ;;
          ret {| for_dependency := dependency dep;
                 compatibility := nodeCompatibility |})
       dependencies.

(** [nodeCompatibilityResults.find(result => result.dependency === name)]. *)
Definition find_compatibility
    (results : list NodeCompatibilityResult) (name : string)
  : option NodeCompatibilityResult :=
  find (fun result => for_dependency result =? name) results.

(** The body of the inner loop of the main function: the three lookups by
    name, then the row.  Reading a field of the [undefined] that a missed
    compatibility lookup returns is a TypeError. *)
Definition joinDependency
    (libyearResults npmCheckResults : JsValue)
    (nodeCompatibilityResults : list NodeCompatibilityResult)
    (csvData : list Row) (dep : Dependency) : M (list Row) :=
  libyearDepResult <-
    Array_find libyearResults (named "dependency" (dependency dep)) ;;
  npmCheckDepResult <-
    Array_find npmCheckResults (named "moduleName" (dependency dep)) ;;
  match find_compatibility nodeCompatibilityResults (dependency dep) with
  | None => throw (TypeError "Cannot read properties of undefined")
  | Some nodeCompatibilityResult =>
      let c := compatibility nodeCompatibilityResult in
      result <- formatDependencyResult dep libyearDepResult npmCheckDepResult
                  (node16Version c) (node18Version c) (node20Version c) ;;
      ret (csvData ++ [result])
  end.

(** The body of the loop over the manifests, on the loop's two variables:
    the counter [i] and the buffer [csvData]. *)
Definition processFile (rootDirName : string) (n : nat)
    (state : nat * list Row) (file : string) : M (nat * list Row) :=
  let (i, csvData) := state in
  console (LogFile i n file) ;;;
  dependencies <- analyzeDependencies L W file rootDirName ;;
  libyearResults <- runLibyearAnalysis L W file ;;
  npmCheckResults <- runNpmCheck L W file ;;
  nodeCompatibilityResults <- runNodeCompatibility dependencies ;;
  if negb (truthy libyearResults) || negb (isArray libyearResults) then
    console (ErrNoValidLibyearData file) ;;; ret (i, csvData)
  else
    csvData' <- foldM (joinDependency libyearResults npmCheckResults
                         nodeCompatibilityResults)
                      dependencies csvData ;;
    ret (i + 1, csvData')%nat.

(** The script's main function.  [process.exit(1)] and an exception that
    nothing catches both end the run without a report. *)
Definition main : M CsvFile :=
  console LogStarting ;;;
  let rootDir := rootDir_of W in
  (if negb (fs_existsSync W rootDir)
   then console (ErrDirectoryNotFound rootDir) ;;; throw (ProcessExit 1)
   else ret tt) ;;;
  let rootDirName := path_basename L rootDir in
  packageJsonFiles <- lift (located W rootDir) ;;
  final <- foldM (processFile rootDirName (List.length packageJsonFiles))
                 packageJsonFiles (1%nat, []) ;;
  file <- generateCsv (snd final) rootDirName ;;
  console LogCompleted ;;; ret file.

End Script.

End Newer.

(** ** [src/unnamed/part_000]: Node 14, 16, 18, 20 and "Node upgrade blocking"

    This revision differs from [src/index.js] in the functions below; the
    loop over the manifests around [joinDependency] is the same. *)

Module Older.

Record NodeCompatibility : Type := {
  node14 : string;
  node16 : string;
  node18 : string;
  node20 : string
}.

Record NodeCompatibilityResult : Type := {
  for_dependency : string;
  compatibility : NodeCompatibility
}.

Definition header : list (string * string) :=
  [ ("module", "Module"); ("dependency", "Dependency"); ("type", "Type");
    ("currentVersion", "Current version");
    ("latestVersion", "Libyear latest version");
    ("npmLatest", "NPM latest version"); ("npmWanted", "Wanted version");
    ("easyUpgrade", "Easy upgrade"); ("unused", "Unused");
    ("node14", "Node 14"); ("node16", "Node 16"); ("node18", "Node 18");
    ("node20", "Node 20");
    ("nodeUpgradeBlocking", "Node upgrade blocking");
    ("drift", "Drift"); ("pulse", "Pulse");
    ("releases", "Releases"); ("major", "Major"); ("minor", "Minor");
    ("patch", "Patch") ].

Section Script.

Variable L : Libs.
Variable W : World.

Definition formatDependencyResult
    (dep : Dependency) (libyearDepResult npmCheckResult : JsValue)
    (node14 node16 node18 node20 : string) : M Row :=
  let npmCheckData := or_else npmCheckResult (JObj []) in
  let isNotNodeUpgradeBlocking :=
    (node14 =? node16) && (node16 =? node18) && (node18 =? node20) in
  latest <- get_prop npmCheckData "latest" ;;
  packageWanted <- get_prop npmCheckData "packageWanted" ;;
  easyUpgrade <- get_prop npmCheckData "easyUpgrade" ;;
  unused <- get_prop npmCheckData "unused" ;;
  drift <- formatDecimal L (prop_of libyearDepResult "drift") ;;
  pulse <- formatDecimal L (prop_of libyearDepResult "pulse") ;;
  ret [ ("module", JStr (module dep));
        ("dependency", JStr (dependency dep));
        ("type", JStr (type dep));
        ("currentVersion", version dep);
        ("latestVersion",
          or_else (prop_of libyearDepResult "available") (JStr "Unknown"));
        ("npmLatest", or_else latest (JStr "Unknown"));
        ("npmWanted", or_else packageWanted (JStr "Unknown"));
        ("easyUpgrade", or_else easyUpgrade (JBool false));
        ("unused", or_else unused (JBool false));
        ("node14", JStr node14);
        ("node16", JStr node16);
        ("node18", JStr node18);
        ("node20", JStr node20);
        ("nodeUpgradeBlocking",
          JStr (if isNotNodeUpgradeBlocking then "FALSE" else "TRUE"));
        ("drift", drift);
        ("pulse", pulse);
        ("releases", or_else (prop_of libyearDepResult "releases") (JStr "0"));
        ("major", or_else (prop_of libyearDepResult "major") (JStr "0"));
        ("minor", or_else (prop_of libyearDepResult "minor") (JStr "0"));
        ("patch", or_else (prop_of libyearDepResult "patch") (JStr "0")) ].

Definition findNodeCompatibility (dependency : string) : M NodeCompatibility :=
  npmData <- fetchNpmPackageInfo W dependency ;;
  if negb (truthy npmData) || strict_eq_string npmData "N/A" then
    ret {| node14 := "N/A"; node16 := "N/A"; node18 := "N/A";
           node20 := "N/A" |}
  else
    node14 <- findLatestCompatibleVersion L npmData "^14.0.0" ;;
    node16 <- findLatestCompatibleVersion L npmData "^16.0.0" ;;
    node18 <- findLatestCompatibleVersion L npmData "^18.0.0" ;;
    node20 <- findLatestCompatibleVersion L npmData "^20.0.0" ;;
    ret {| node14 := node14; node16 := node16; node18 := node18;
           node20 := node20 |}.

Definition runNodeCompatibility
    (dependencies : list Dependency) : M (list NodeCompatibilityResult) :=
  console LogRunningNodeCompatibility ;;;
  mapM (fun dep =>
          nodeCompatibility <- findNodeCompatibility (dependency dep) ;;
          ret {| for_dependency := dependency dep;
                 compatibility := nodeCompatibility |})
       dependencies.

Definition find_compatibility
    (results : list NodeCompatibilityResult) (name : string)
  : option NodeCompatibilityResult :=
  find (fun result => for_dependency result =? name) results.

(** Destructuring the [undefined] of a missed compatibility lookup is a
    TypeError. *)
Definition joinDependency
    (libyearResults npmCheckResults : JsValue)
    (nodeCompatibilityResults : list NodeCompatibilityResult)
    (csvData : list Row) (dep : Dependency) : M (list Row) :=
  libyearDepResult <-
    Array_find libyearResults (named "dependency" (dependency dep)) ;;
  npmCheckDepResult <-
    Array_find npmCheckResults (named "moduleName" (dependency dep)) ;;
  match find_compatibility nodeCompatibilityResults (dependency dep) with
  | None => throw (TypeError "Cannot destructure undefined")
  | Some nodeCompatibilityResult =>
      let c := compatibility nodeCompatibilityResult in
      result <- formatDependencyResult dep libyearDepResult npmCheckDepResult
                  (node14 c) (node16 c) (node18 c) (node20 c) ;;
      ret (csvData ++ [result])
  end.

End Script.

End Older.

(** ** A sample machine

    POSIX [path.dirname] and [path.basename] on paths without trailing
    slashes, a registry with three packages, and two manifests.  The range
    comparison is a table of the few pairs the samples use. *)

Module Sample.

Fixpoint split_last_slash (s : string) : option (string * string) :=
  match s with
  | EmptyString => None
  | String c rest =>
      match split_last_slash rest with
      | Some (d, b) => Some (String c d, b)
      | None => if (c =? "/")%char then Some (EmptyString, rest) else None
      end
  end.

Definition dirname (p : string) : string :=
  match split_last_slash p with
  | Some (d, _) => if d =? "" then "/" else d
  | None => "."
  end.

Definition basename (p : string) : string :=
  match split_last_slash p with
  | Some (_, b) => b
  | None => p
  end.

Definition intersects (engineRange : JsValue) (nodeVersionRange : string)
  : Result bool :=
  match engineRange with
  | JStr ">=16" =>
      Ok (negb (nodeVersionRange =? "^14.0.0"))
  | JStr ">=12 <16" =>
      Ok (nodeVersionRange =? "^14.0.0")
  | JStr "*" => Ok true
  | JStr _ => Throw (TypeError "Invalid comparator")
  | _ => Throw (TypeError "Invalid range")
  end.

Definition libs : Libs :=
  {| semver_intersects := intersects;
     path_dirname := dirname;
     path_basename := basename;
     Number_toString := fun _ => "1e+21" |}.

Definition root_manifest : JsValue :=
  JObj [ ("name", JStr "myproj");
         ("dependencies", JObj [ ("a", JStr "^1.0.0") ]);
         ("devDependencies", JObj [ ("b", JStr "~2.0.0") ]) ].

Definition foo_manifest : JsValue :=
  JObj [ ("name", JStr "foo");
         ("dependencies", JObj [ ("c", JStr "1.0.0") ]) ].

(** The registry document of [a]: the snapshot of the specification's
    example, and a third version that declares no engines. *)
Definition packument_a : JsValue :=
  JObj [ ("name", JStr "a");
         ("versions",
           JObj [ ("2.0.0", JObj [ ("engines", JObj [ ("node", JStr ">=16") ]) ]);
                  ("1.0.0",
                    JObj [ ("engines", JObj [ ("node", JStr ">=12 <16") ]) ]);
                  ("0.9.0", JObj [ ("name", JStr "a") ]) ]) ].

Definition packument_c : JsValue :=
  JObj [ ("versions",
           JObj [ ("1.0.0", JObj [ ("engines", JObj [ ("node", JStr "*") ]) ]) ]) ].


Definition libyear_root : JsValue :=
  JArr [ JObj [ ("dependency", JStr "a");
                ("drift", JNum (Finite (314159 # 100000)));
                ("pulse", JNum (Finite (1 # 2)));
                ("releases", JNum (Finite 4));
                ("major", JNum (Finite 1));
                ("minor", JNum (Finite 0));
                ("patch", JNum (Finite 2));
                ("available", JStr "2.0.0") ] ].

Definition npmCheck_root : JsValue :=
  JArr [ JObj [ ("moduleName", JStr "a");
                ("latest", JStr "2.0.0");
                ("packageWanted", JStr "1.9.0");
                ("easyUpgrade", JBool true);
                ("unused", JBool false) ] ].

Definition exec_ok (stdout : JsValue) : ExecOutcome :=
  {| exec_error := None; exec_stderr := ""; exec_stdout_json := Ok stdout |}.

Definition exec_failed : ExecOutcome :=
  {| exec_error := Some (HostError "Command failed: libyear --json");
     exec_stderr := "";
     exec_stdout_json := Throw (SyntaxError "Unexpected end of JSON input") |}.

Definition exec_diagnostic : ExecOutcome :=
  {| exec_error := None; exec_stderr := "npm WARN deprecated";
     exec_stdout_json := Ok (JArr []) |}.

Definition root_file : string := "myproj/package.json".
Definition foo_file : string := "myproj/pkgs/foo/package.json".

(** [libyear] answers with a list in [myproj] and with diagnostic text in
    [myproj/pkgs/foo]; [npm-check] fails in the latter; the registry knows
    [a] and [c] and answers 404 for [b]. *)
Definition world : World :=
  {| argv_2 := Some "myproj";
     fs_existsSync := fun dir => dir =? "myproj";
     located := fun _ => Ok [root_file; foo_file];
     read_manifest := fun file =>
       if file =? root_file then Ok root_manifest
       else if file =? foo_file then Ok foo_manifest
       else Throw (HostError "ENOENT");
     exec_libyear := fun dir =>
       if dir =? "myproj" then exec_ok libyear_root else exec_diagnostic;
     npmCheck_packages := fun dir =>
       if dir =? "myproj" then Ok npmCheck_root
       else Throw (HostError "npm-check failed");
     axios_get := fun url =>
       if url =? "https://registry.npmjs.org/a" then Ok packument_a
       else if url =? "https://registry.npmjs.org/c" then Ok packument_c
       else Throw (HostError "Request failed with status code 404") |}.

(** The same machine when the [libyear] process fails in [myproj]. *)
Definition world_libyear_fails : World :=
  {| argv_2 := argv_2 world;
     fs_existsSync := fs_existsSync world;
     located := located world;
     read_manifest := read_manifest world;
     exec_libyear := fun dir =>
       if dir =? "myproj" then exec_failed else exec_libyear world dir;
     npmCheck_packages := npmCheck_packages world;
     axios_get := axios_get world |}.


Definition dep_a : Dependency :=
  {| dependency := "a"; type := "production"; version := JStr "^1.0.0";
     module := "myproj" |}.

Definition dep_b : Dependency :=
  {| dependency := "b"; type := "development"; version := JStr "~2.0.0";
     module := "myproj" |}.

End Sample.

(** ** Vocabulary of the specification *)

(** The engine range a published version declares for Node: the value of
    [engines.node] in its metadata, [undefined] when it declares none. *)
Definition declared_engine (versions : JsValue) (version : string) : JsValue :=
  prop_of (prop_of (prop_of versions version) "engines") "node".

(** Range intersection, as [semver] decides it; a range it cannot read
    intersects nothing. *)
Definition intersects (L : Libs) (engineRange : JsValue) (nodeVersionRange : string)
  : bool :=
  match semver_intersects L engineRange nodeVersionRange with
  | Ok b => b
  | Throw _ => false
  end.

(** A published version qualifies for a runtime range when it declares an
    engine range (an empty string declares nothing) and that range intersects
    the runtime range. *)
Definition qualifies (L : Libs) (versions : JsValue) (nodeVersionRange : string)
    (version : string) : bool :=
  truthy (declared_engine versions version)
  && intersects L (declared_engine versions version) nodeVersionRange.

(** A two-decimal string with a comma as the decimal separator: an optional
    minus sign, one or more digits, a comma, exactly two digits. *)
Definition is_digit (c : ascii) : bool :=
  (48 <=? nat_of_ascii c)%nat && (nat_of_ascii c <=? 57)%nat.

Fixpoint all_digits (s : string) : bool :=
  match s with
  | EmptyString => true
  | String c rest => is_digit c && all_digits rest
  end.

Definition two_digits (s : string) : bool :=
  match s with
  | String a (String b EmptyString) => is_digit a && is_digit b
  | _ => false
  end.

Fixpoint digits_comma_two_digits (seen_digit : bool) (s : string) : bool :=
  match s with
  | EmptyString => false
  | String c rest =>
      if is_digit c then digits_comma_two_digits true rest
      else if (c =? ",")%char then seen_digit && two_digits rest
      else false
  end.

Definition two_decimal_comma (s : string) : bool :=
  match s with
  | EmptyString => false
  | String c rest =>
      if (c =? "-")%char then digits_comma_two_digits false rest
      else digits_comma_two_digits false s
  end.

(** The double nearest to the literal [3.14159]. *)
Definition double_3_14159 : Q := 3537115888337719 # (2 ^ 50).


(** A metric of a drift record that [formatDecimal] accepts: missing, or a
    Number. *)
Definition missing_or_number (v : JsValue) : bool :=
  match v with
  | JUndefined | JNull | JNum _ => true
  | _ => false
  end.



(** ** The manifest locator

    [findPackageJsonFiles] sees the file system through [fs.readdirSync] and
    [fs.statSync].  What these two show of a directory tree is: a file (or
    anything else that is not a directory), a directory with its entries in
    the order [readdirSync] lists them, a directory that [readdirSync]
    refuses to list, or a name that [statSync] fails on (a dangling link).
    A symbolic link to a directory is a directory to both; the tree is
    finite, so links that form a cycle are outside it.  The [located] field
    of [World] stands for the outcome of this walk from the root directory. *)
#[local] Set Warnings "-register-all".
Inductive FsNode : Type :=
| FsFile
| FsDir (entries : list (string * FsNode))
| FsLocked (error : JsError)
| FsDangling (error : JsError).
#[local] Set Warnings "register-all".

(** [stat.isDirectory()]. *)
Definition isDirectory (node : FsNode) : bool :=
  match node with
  | FsDir _ | FsLocked _ => true
  | FsFile | FsDangling _ => false
  end.

Section Locator.

(** [path.join]. *)
Variable path_join : string -> string -> string.

(** [findPackageJsonFiles(dir)], where [node] is what [dir] names.  The
    [forEach] over the entries carries [results]. *)
Fixpoint findPackageJsonFiles (dir : string) (node : FsNode) {struct node}
  : M (list string) :=
  match node with
  | FsDir files =>
      (fix forEach (files : list (string * FsNode)) (results : list string)
           {struct files} : M (list string) :=
         match files with
         | [] => ret results
         | (file, stat) :: rest =>
             let fullPath := path_join dir file in
             results' <-
               match stat with
               | FsDangling error => throw error
               | _ =>
                   if isDirectory stat && negb (file =? "node_modules")
                   then
                     found <- findPackageJsonFiles fullPath stat ;;
                     ret (results ++ found)
                   else if file =? "package.json"
                   then ret (results ++ [fullPath])
                   else ret results
               end ;;
             forEach rest results'
         end) files []
  | FsFile => throw (HostError "ENOTDIR: not a directory, scandir")
  | FsLocked error => throw error
  | FsDangling error => throw error
  end.

(** One turn of that [forEach], given what the recursive call yields. *)
Definition visit (found : M (list string)) (dir : string)
    (results : list string) (file : string) (stat : FsNode) : M (list string) :=
  match stat with
  | FsDangling error => throw error
  | _ =>
      if isDirectory stat && negb (file =? "node_modules")
      then found' <- found ;; ret (results ++ found')
      else if file =? "package.json"
      then ret (results ++ [path_join dir file])
      else ret results
  end.

(** The same [forEach], as a function of its own. *)
Fixpoint forEach (dir : string) (files : list (string * FsNode))
    (results : list string) : M (list string) :=
  match files with
  | [] => ret results
  | (file, stat) :: rest =>
      results' <-
        visit (findPackageJsonFiles (path_join dir file) stat)
              dir results file stat ;;
      forEach dir rest results'
  end.

(** A manifest the walk is meant to find from [dir]: a file named
    [package.json] in [dir] itself, or a manifest of a subdirectory of [dir]
    that is not named [node_modules]. *)
Inductive manifest_from : string -> FsNode -> string -> Prop :=
| manifest_here dir files :
    In ("package.json", FsFile) files ->
    manifest_from dir (FsDir files) (path_join dir "package.json")
| manifest_below dir files name child path :
    In (name, child) files ->
    isDirectory child = true ->
    name <> "node_modules" ->
    manifest_from (path_join dir name) child path ->
    manifest_from dir (FsDir files) path.

(** What stops the walk: a root that cannot be listed, a name [statSync]
    fails on in a directory the walk lists, or such trouble in a
    subdirectory that is not named [node_modules]. *)
Inductive blocked : FsNode -> Prop :=
| blocked_file : blocked FsFile
| blocked_locked error : blocked (FsLocked error)
| blocked_dangling error : blocked (FsDangling error)
| blocked_entry files name error :
    In (name, FsDangling error) files -> blocked (FsDir files)
| blocked_below files name child :
    In (name, child) files ->
    isDirectory child = true ->
    name <> "node_modules" ->
    blocked child ->
    blocked (FsDir files).

End Locator.

(** The tree with every [node_modules] directory emptied. *)
Fixpoint without_node_modules (node : FsNode) : FsNode :=
  match node with
  | FsDir files =>
      FsDir (map (fun entry =>
                    (fst entry,
                     if fst entry =? "node_modules"
                     then if isDirectory (snd entry) then FsDir [] else snd entry
                     else without_node_modules (snd entry)))
                 files)
  | _ => node
  end.

(** ** A sample directory tree

    [myproj] holds a manifest, installed packages, and two package
    directories, one of which has a manifest and a [node_modules] that
    cannot be listed. *)
Module SampleTree.

Definition join (dir file : string) : string := dir ++ "/" ++ file.

Definition foo : FsNode :=
  FsDir [ ("index.js", FsFile);
          ("node_modules", FsLocked (HostError "EACCES: permission denied"));
          ("package.json", FsFile) ].

Definition installed : FsNode :=
  FsDir [ ("a", FsDir [ ("package.json", FsFile) ]) ].

Definition tree : FsNode :=
  FsDir [ ("README.md", FsFile);
          ("node_modules", installed);
          ("package.json", FsFile);
          ("pkgs", FsDir [ ("empty", FsDir []); ("foo", foo) ]) ].

(** The same tree with a dangling link beside the manifest of [foo]. *)
Definition tree_with_dangling_link : FsNode :=
  FsDir [ ("package.json", FsFile);
          ("pkgs",
            FsDir [ ("foo",
                      FsDir [ ("package.json", FsFile);
                              ("latest",
                                FsDangling
                                  (HostError "ENOENT: no such file or directory")) ]) ]) ].

End SampleTree.

(** A row of the report stems from a declaration of one of [files]. *)
Definition stems_from (L : Libs) (W : World) (rootDirName : string)
    (files : list string) (row : Row) : Prop :=
  map fst row = map fst Newer.header
  /\ exists file dependencies dep,
       In file files
       /\ outcome (analyzeDependencies L W file rootDirName) = Ok dependencies
       /\ In dep dependencies
       /\ field row "dependency" = JStr (dependency dep)
       /\ field row "type" = JStr (type dep)
       /\ field row "currentVersion" = version dep
       /\ field row "module" = JStr (moduleLabel L file rootDirName).

(** ** More sample machines *)

Module SampleRuns.

(** No argument, and no directory [./]. *)
Definition world_without_root : World :=
  {| argv_2 := None;
     fs_existsSync := fun _ => false;
     located := located Sample.world;
     read_manifest := read_manifest Sample.world;
     exec_libyear := exec_libyear Sample.world;
     npmCheck_packages := npmCheck_packages Sample.world;
     axios_get := axios_get Sample.world |}.

(** The same, on a machine where nothing else answers either. *)
Definition world_without_anything : World :=
  {| argv_2 := None;
     fs_existsSync := fun _ => false;
     located := fun _ => Throw (HostError "ENOENT");
     read_manifest := fun _ => Throw (HostError "ENOENT");
     exec_libyear := fun _ => Sample.exec_failed;
     npmCheck_packages := fun _ => Throw (HostError "ENOENT");
     axios_get := fun _ => Throw (HostError "ENOTFOUND") |}.


(** The manifest of [myproj/pkgs/foo] is not JSON. *)
Definition world_with_broken_manifest : World :=
  {| argv_2 := argv_2 Sample.world;
     fs_existsSync := fs_existsSync Sample.world;
     located := located Sample.world;
     read_manifest := fun file =>
       if file =? Sample.foo_file
       then Throw (SyntaxError "Unexpected token } in JSON")
       else read_manifest Sample.world file;
     exec_libyear := exec_libyear Sample.world;
     npmCheck_packages := npmCheck_packages Sample.world;
     axios_get := axios_get Sample.world |}.

(** The sample machine when the outdated check fails in [myproj] too. *)
Definition world_npmCheck_fails : World :=
  {| argv_2 := argv_2 Sample.world;
     fs_existsSync := fs_existsSync Sample.world;
     located := located Sample.world;
     read_manifest := read_manifest Sample.world;
     exec_libyear := exec_libyear Sample.world;
     npmCheck_packages := fun _ => Throw (HostError "npm-check failed");
     axios_get := axios_get Sample.world |}.


(** The sample machine when [libyear] prints something that is not JSON. *)
Definition world_with_banner : World :=
  {| argv_2 := argv_2 Sample.world;
     fs_existsSync := fs_existsSync Sample.world;
     located := located Sample.world;
     read_manifest := read_manifest Sample.world;
     exec_libyear := fun _ =>
       {| exec_error := None; exec_stderr := "";
          exec_stdout_json :=
            Throw (SyntaxError "Unexpected token u in JSON at position 0") |};
     npmCheck_packages := npmCheck_packages Sample.world;
     axios_get := axios_get Sample.world |}.


(** A manifest with a name and a [null] group, alone in [.]. *)
Definition bare_manifest : JsValue :=
  JObj [ ("name", JStr "bare"); ("dependencies", JNull) ].

Definition world_with_bare_manifest : World :=
  {| argv_2 := None;
     fs_existsSync := fun _ => true;
     located := fun _ => Ok ["package.json"];
     read_manifest := fun _ => Ok bare_manifest;
     exec_libyear := fun _ => Sample.exec_ok (JArr []);
     npmCheck_packages := fun _ => Ok (JArr []);
     axios_get := fun _ => Ok JNull |}.

End SampleRuns.

(** The declaration [analyzeDependencies] makes of one entry of a group. *)
Definition declaration_of (kind label : string) (entry : string * JsValue)
  : Dependency :=
  {| dependency := fst entry; type := kind; version := snd entry;
     module := label |}.

(** Whether the drift analysis of a manifest yields a list, and the
    declarations of a manifest ([[]] when it cannot be parsed). *)
Definition yields_list (L : Libs) (W : World) (file : string) : bool :=
  match outcome (runLibyearAnalysis L W file) with
  | Ok (JArr _) => true
  | _ => false
  end.

Definition declared (L : Libs) (W : World) (rootDirName file : string)
  : list Dependency :=
  match outcome (analyzeDependencies L W file rootDirName) with
  | Ok dependencies => dependencies
  | Throw _ => []
  end.

(** The rows the manifests of [files] are due: one per declaration of each
    manifest whose drift analysis yields a list. *)
Definition rows_due (L : Libs) (W : World) (rootDirName : string)
    (files : list string) : nat :=
  list_sum (map (fun file =>
                   if yields_list L W file
                   then List.length (declared L W rootDirName file)
                   else 0%nat)
                files).

(** * Properties *)

(** ** The monad *)

Lemma bind_ret {A B} (a : A) (k : A -> M B) : bind (ret a) k = k a.
Proof. unfold bind, ret. destruct (k a). reflexivity. Qed.

Lemma outcome_bind {A B} (m : M A) (k : A -> M B) :
  outcome (bind m k) =
  match outcome m with
  | Ok a => outcome (k a)
  | Throw e => Throw e
  end.
Proof.
  destruct m as [out [a | e]]; simpl; [destruct (k a) |]; reflexivity.
Qed.

Lemma outcome_bind_Ok {A B} (m : M A) (k : A -> M B) (a : A) :
  outcome m = Ok a -> outcome (bind m k) = outcome (k a).
Proof. intros H. rewrite outcome_bind, H. reflexivity. Qed.

Lemma outcome_bind_Throw {A B} (m : M A) (k : A -> M B) (e : JsError) :
  outcome m = Throw e -> outcome (bind m k) = Throw e.
Proof. intros H. rewrite outcome_bind, H. reflexivity. Qed.

Lemma outcome_bind_inv {A B} (m : M A) (k : A -> M B) (b : B) :
  outcome (bind m k) = Ok b ->
  exists a, outcome m = Ok a /\ outcome (k a) = Ok b.
Proof.
  rewrite outcome_bind. destruct (outcome m) as [a | e]; [eauto | discriminate].
Qed.

Lemma outcome_console {A} (l : LogLine) (m : M A) :
  outcome (console l ;;; m) = outcome m.
Proof. rewrite outcome_bind. reflexivity. Qed.

Lemma outcome_ret {A} (a : A) : outcome (ret a) = Ok a.
Proof. reflexivity. Qed.

Lemma outcome_get_prop (v : JsValue) (k : string) :
  nullish v = false -> get_prop v k = ret (prop_of v k).
Proof. unfold get_prop. intros ->. reflexivity. Qed.

Lemma truthy_not_nullish (v : JsValue) : truthy v = true -> nullish v = false.
Proof. destruct v; simpl; congruence. Qed.

Lemma Object_keys_not_nullish (v : JsValue) (keys : list string) :
  outcome (Object_keys v) = Ok keys -> nullish v = false.
Proof. destruct v; simpl; congruence. Qed.

(** ** Lists in the monad *)

Lemma filterM_pure {A} (f : A -> M bool) (p : A -> bool) (xs : list A) :
  (forall x, In x xs -> outcome (f x) = Ok (p x)) ->
  outcome (filterM f xs) = Ok (filter p xs).
Proof.
  induction xs as [| x rest IH]; intros H; simpl; [reflexivity |].
  rewrite (outcome_bind_Ok _ _ (p x)) by (apply H; left; reflexivity).
  rewrite (outcome_bind_Ok _ _ (filter p rest))
    by (apply IH; intros y Hy; apply H; right; exact Hy).
  destruct (p x); reflexivity.
Qed.

Lemma last_nth {A} (l : list A) (d d' : A) :
  l <> [] -> nth (List.length l - 1) l d = last l d'.
Proof.
  induction l as [| a [| b rest] IH]; intros Hne; [congruence | reflexivity |].
  change (nth (List.length (a :: b :: rest) - 1) (a :: b :: rest) d)
    with (nth (List.length rest) (b :: rest) d).
  change (last (a :: b :: rest) d') with (last (b :: rest) d').
  rewrite <- IH by discriminate. simpl. rewrite Nat.sub_0_r. reflexivity.
Qed.

(** ** The compatibility filter *)

Lemma isCompatibleWithNodeVersion_outcome
    (L : Libs) (engineRange : JsValue) (nodeVersionRange : string) :
  outcome (isCompatibleWithNodeVersion L engineRange nodeVersionRange)
  = Ok (truthy engineRange && intersects L engineRange nodeVersionRange).
Proof.
  unfold isCompatibleWithNodeVersion, intersects.
  destruct (truthy engineRange); simpl; [| reflexivity].
  destruct (semver_intersects L engineRange nodeVersionRange); reflexivity.
Qed.

Lemma engines_node_declared (versions : JsValue) (version : string) :
  nullish versions = false ->
  engines_node versions version = ret (declared_engine versions version).
Proof.
  intros H. unfold engines_node. rewrite (outcome_get_prop _ _ H).
  rewrite bind_ret. reflexivity.
Qed.

Lemma compatibleVersions_filter
    (L : Libs) (versions : JsValue) (nodeVersion : string) (keys : list string) :
  outcome (Object_keys versions) = Ok keys ->
  outcome (compatibleVersions L versions nodeVersion)
  = Ok (filter (qualifies L versions nodeVersion) keys).
Proof.
  intros Hkeys. unfold compatibleVersions.
  rewrite (outcome_bind_Ok _ _ keys Hkeys).
  apply filterM_pure. intros version _.
  rewrite (engines_node_declared _ _ (Object_keys_not_nullish _ _ Hkeys)).
  rewrite bind_ret. apply isCompatibleWithNodeVersion_outcome.
Qed.

Lemma findLatestCompatibleVersion_outcome
    (L : Libs) (npmData : JsValue) (nodeVersion : string) (keys : list string) :
  truthy npmData = true ->
  outcome (Object_keys (prop_of npmData "versions")) = Ok keys ->
  outcome (findLatestCompatibleVersion L npmData nodeVersion)
  = Ok (last (filter (qualifies L (prop_of npmData "versions") nodeVersion) keys)
             "Not informed").
Proof.
  intros Htruthy Hkeys. unfold findLatestCompatibleVersion.
  rewrite Htruthy. cbn [negb].
  rewrite (outcome_get_prop _ _ (truthy_not_nullish _ Htruthy)), bind_ret.
  rewrite (outcome_bind_Ok _ _ _ (compatibleVersions_filter L _ nodeVersion _ Hkeys)).
  destruct (filter _ keys) as [| v rest] eqn:E; [reflexivity |].
  cbn [List.length Nat.ltb Nat.leb]. cbn [outcome ret snd].
  f_equal. apply (last_nth (v :: rest)). discriminate.
Qed.



Example resolve_node18 :
  findLatestCompatibleVersion Sample.libs Sample.packument_a "^18.0.0"
  = ret "2.0.0".
Proof. reflexivity. Qed.

Example resolve_nothing_qualifies :
  findLatestCompatibleVersion Sample.libs Sample.packument_c "^18.0.0"
  = ret "1.0.0"
  /\ findLatestCompatibleVersion Sample.libs
       (JObj [ ("versions", JObj [ ("1.0.0", JObj []) ]) ]) "^18.0.0"
     = ret "Not informed".
Proof. split; reflexivity. Qed.



(** ** The registry client *)

Lemma fetchNpmPackageInfo_total (W : World) (packageName : string) :
  fetchNpmPackageInfo W packageName
  = ret (match axios_get W (registry_url packageName) with
         | Ok data => data
         | Throw _ => JStr "N/A"
         end).
Proof.
  unfold fetchNpmPackageInfo.
  destruct (axios_get W (registry_url packageName)); reflexivity.
Qed.




(** ** The manifest parser *)

Lemma mapM_pure {A B} (f : A -> M B) (g : A -> B) (xs : list A) :
  (forall x, In x xs -> outcome (f x) = Ok (g x)) ->
  outcome (mapM f xs) = Ok (map g xs).
Proof.
  induction xs as [| x rest IH]; intros H; simpl; [reflexivity |].
  rewrite (outcome_bind_Ok _ _ (g x)) by (apply H; left; reflexivity).
  rewrite (outcome_bind_Ok _ _ (map g rest))
    by (apply IH; intros y Hy; apply H; right; exact Hy).
  reflexivity.
Qed.

Lemma Object_keys_returns (v : JsValue) :
  nullish v = false -> exists keys, Object_keys v = ret keys.
Proof. destruct v; simpl; intros H; try discriminate; eauto. Qed.

Lemma or_else_object_not_nullish (v : JsValue) :
  nullish (or_else v (JObj [])) = false.
Proof.
  unfold or_else. destruct (truthy v) eqn:E; [| reflexivity].
  apply truthy_not_nullish. exact E.
Qed.

Lemma declarations_outcome (deps : JsValue) (type module : string) :
  nullish deps = false ->
  exists keys,
    outcome (declarations deps type module)
    = Ok (map (fun dep => {| dependency := dep; type := type;
                             version := prop_of deps dep; module := module |})
              keys).
Proof.
  intros H. destruct (Object_keys_returns deps H) as [keys Hkeys].
  exists keys. unfold declarations. rewrite Hkeys, bind_ret.
  apply mapM_pure. intros dep _.
  rewrite (outcome_get_prop _ _ H), bind_ret. reflexivity.
Qed.

Lemma declarations_of_keys (deps : JsValue) (type module : string) :
  nullish deps = false ->
  exists keys,
    Object_keys deps = ret keys
    /\ outcome (declarations deps type module)
       = Ok (map (fun dep => {| dependency := dep; type := type;
                                version := prop_of deps dep;
                                module := module |})
                 keys).
Proof.
  intros H. destruct (Object_keys_returns deps H) as [keys Hkeys].
  exists keys. split; [exact Hkeys |].
  unfold declarations. rewrite Hkeys, bind_ret.
  apply mapM_pure. intros dep _.
  rewrite (outcome_get_prop _ _ H), bind_ret. reflexivity.
Qed.

(** C7.  For a manifest that parses to a JSON value other than [null]
    (nothing else gets as far as a label), [analyzeDependencies] returns one
    declaration for every key of the production group, then one for every
    key of the development group, with that key as name and the group's
    value for it as range; and every one of these declarations carries the
    same label: the root directory's name when the basename of the
    manifest's directory equals it, and [root/dirBasename] otherwise. *)
Theorem module_label_of_manifest
    (L : Libs) (W : World) (packageJsonPath rootDirName : string)
    (packageJson : JsValue) :
  read_manifest W packageJsonPath = Ok packageJson ->
  nullish packageJson = false ->
  let dirName := path_basename L (path_dirname L packageJsonPath) in
  let label :=
    if dirName =? rootDirName then rootDirName
    else (rootDirName ++ "/" ++ dirName)%string in
  let productionDeps :=
    or_else (prop_of packageJson "dependencies") (JObj []) in
  let devDeps := or_else (prop_of packageJson "devDependencies") (JObj []) in
  exists productionKeys developmentKeys dependencies,
    Object_keys productionDeps = ret productionKeys
    /\ Object_keys devDeps = ret developmentKeys
    /\ outcome (analyzeDependencies L W packageJsonPath rootDirName)
       = Ok dependencies
    /\ dependencies
       = map (fun dep => {| dependency := dep; type := "production";
                            version := prop_of productionDeps dep;
                            module := label |})
             productionKeys
         ++ map (fun dep => {| dependency := dep; type := "development";
                               version := prop_of devDeps dep;
                               module := label |})
                developmentKeys
    /\ List.length dependencies
       = (List.length productionKeys + List.length developmentKeys)%nat
    /\ Forall (fun dep => module dep = label) dependencies.
Proof.
  intros Hread Hobject dirName label productionDeps devDeps.
  assert (Hlabel : moduleLabel L packageJsonPath rootDirName = label).
  { unfold label, dirName, moduleLabel.
    destruct (String.eqb_spec
                (path_basename L (path_dirname L packageJsonPath))
                rootDirName) as [Heq | _]; [exact Heq | reflexivity]. }
  destruct (declarations_of_keys productionDeps "production" label
              (or_else_object_not_nullish _)) as (keys & Hkeys & Hprod).
  destruct (declarations_of_keys devDeps "development" label
              (or_else_object_not_nullish _)) as (devKeys & HdevKeys & Hdev).
  exists keys, devKeys. eexists.
  split; [exact Hkeys |]. split; [exact HdevKeys |].
  split; [| split; [reflexivity | split]].
  - unfold analyzeDependencies. rewrite outcome_console, Hread.
    change (lift (Ok packageJson)) with (ret packageJson).
    rewrite bind_ret, !(outcome_get_prop _ _ Hobject), !bind_ret, Hlabel.
    fold productionDeps devDeps.
    rewrite (outcome_bind_Ok _ _ _ Hprod), (outcome_bind_Ok _ _ _ Hdev).
    reflexivity.
  - rewrite length_app, !length_map. reflexivity.
  - apply Forall_app. split; apply Forall_map, Forall_forall; intros dep _;
      reflexivity.
Qed.

(** The examples of the specification: under the root [myproj], the
    declaration of the manifest of [pkgs/foo] is labelled [myproj/foo], and
    the two declarations of the root manifest are labelled [myproj]. *)
Lemma module_label_of_manifest_witness :
  outcome (analyzeDependencies Sample.libs Sample.world
             "myproj/pkgs/foo/package.json" "myproj")
  = Ok [ {| dependency := "c"; type := "production";
            version := JStr "1.0.0"; module := "myproj/foo" |} ]
  /\ outcome (analyzeDependencies Sample.libs Sample.world
                "myproj/package.json" "myproj")
     = Ok [ {| dependency := "a"; type := "production";
               version := JStr "^1.0.0"; module := "myproj" |};
            {| dependency := "b"; type := "development";
               version := JStr "~2.0.0"; module := "myproj" |} ].
Proof.
  split.
  - pose proof (module_label_of_manifest Sample.libs Sample.world
                  "myproj/pkgs/foo/package.json" "myproj" Sample.foo_manifest
                  eq_refl eq_refl) as H.
    cbv zeta in H.
    destruct H as (keys & devKeys & deps & Hkeys & HdevKeys & Hout & Hdeps & _).
    cbv in Hkeys, HdevKeys. injection Hkeys as <-. injection HdevKeys as <-.
    rewrite Hout, Hdeps. reflexivity.
  - pose proof (module_label_of_manifest Sample.libs Sample.world
                  "myproj/package.json" "myproj" Sample.root_manifest
                  eq_refl eq_refl) as H.
    cbv zeta in H.
    destruct H as (keys & devKeys & deps & Hkeys & HdevKeys & Hout & Hdeps & _).
    cbv in Hkeys, HdevKeys. injection Hkeys as <-. injection HdevKeys as <-.
    rewrite Hout, Hdeps. reflexivity.
Defined.

Example root_manifest_declarations :
  outcome (analyzeDependencies Sample.libs Sample.world
             "myproj/package.json" "myproj")
  = Ok [ Sample.dep_a; Sample.dep_b ].
Proof. reflexivity. Qed.

(** ** The report row *)

Lemma npmCheckData_not_nullish (npmCheckResult : JsValue) :
  nullish (or_else npmCheckResult (JObj [])) = false.
Proof. apply or_else_object_not_nullish. Qed.

(** Reduces a hypothesis [outcome (formatDependencyResult ...) = Ok row] to
    the outcomes of the two [formatDecimal] calls and the literal row. *)
Ltac invert_row H drift Hdrift pulse Hpulse :=
  rewrite !(outcome_get_prop _ _ (npmCheckData_not_nullish _)), !bind_ret in H;
  apply outcome_bind_inv in H; destruct H as (drift & Hdrift & H);
  apply outcome_bind_inv in H; destruct H as (pulse & Hpulse & H);
  cbn [outcome ret snd] in H; injection H as H; subst.

(** C8.  In the older revision a row's "Node upgrade blocking" field is the
    text TRUE unless the four runtime results are identical strings, and the
    text FALSE when they are; a row of the newer revision has no such field
    and its header no such column. *)
Theorem nodeUpgradeBlocking_unless_identical
    (L : Libs) (dep : Dependency) (libyearDepResult npmCheckResult : JsValue)
    (node14 node16 node18 node20 : string) (older newer : Row) :
  outcome (Older.formatDependencyResult L dep libyearDepResult npmCheckResult
             node14 node16 node18 node20) = Ok older ->
  outcome (Newer.formatDependencyResult L dep libyearDepResult npmCheckResult
             node16 node18 node20) = Ok newer ->
  (node14 = node16 /\ node16 = node18 /\ node18 = node20 ->
   field older "nodeUpgradeBlocking" = JStr "FALSE")
  /\ (~ (node14 = node16 /\ node16 = node18 /\ node18 = node20) ->
      field older "nodeUpgradeBlocking" = JStr "TRUE")
  /\ has_field newer "nodeUpgradeBlocking" = false
  /\ existsb (fun column => fst column =? "nodeUpgradeBlocking") Newer.header
     = false
  /\ existsb (fun column => fst column =? "nodeUpgradeBlocking") Older.header
     = true.
Proof.
  intros Holder Hnewer.
  unfold Older.formatDependencyResult in Holder.
  invert_row Holder drift Hdrift pulse Hpulse.
  unfold Newer.formatDependencyResult in Hnewer.
  invert_row Hnewer drift' Hdrift' pulse' Hpulse'.
  repeat split.
  - intros (-> & -> & ->). cbn. rewrite String.eqb_refl. reflexivity.
  - intros Hdiffer. cbn.
    destruct (String.eqb_spec node14 node16) as [E1 | _]; [| reflexivity].
    destruct (String.eqb_spec node16 node18) as [E2 | _]; [| reflexivity].
    destruct (String.eqb_spec node18 node20) as [E3 | _]; [| reflexivity].
    exfalso. apply Hdiffer. repeat split; assumption.
Qed.

(** A dependency the registry does not know has "N/A" in all four columns:
    not blocking.  One that only runs from Node 16 on is. *)
Lemma nodeUpgradeBlocking_unless_identical_witness :
  exists older,
    outcome (Older.formatDependencyResult Sample.libs Sample.dep_a
               JUndefined JUndefined "Not informed" "2.0.0" "2.0.0" "2.0.0")
    = Ok older
    /\ field older "nodeUpgradeBlocking" = JStr "TRUE".
Proof.
  eexists. split; [reflexivity |].
  refine (proj1 (proj2 (nodeUpgradeBlocking_unless_identical
           Sample.libs Sample.dep_a JUndefined JUndefined
           "Not informed" "2.0.0" "2.0.0" "2.0.0" _ _ eq_refl eq_refl)) _).
  intros (E & _). discriminate E.
Defined.

Example not_blocking_when_identical :
  exists older,
    outcome (Older.formatDependencyResult Sample.libs Sample.dep_b
               JUndefined JUndefined "N/A" "N/A" "N/A" "N/A")
    = Ok older
    /\ field older "nodeUpgradeBlocking" = JStr "FALSE".
Proof. eexists. split; reflexivity. Qed.

(** ** Decimal formatting *)

Lemma is_digit_digit_char (d : Z) : (0 <= d < 10)%Z -> is_digit (digit_char d) = true.
Proof.
  intros H.
  assert (E : (d = 0 \/ d = 1 \/ d = 2 \/ d = 3 \/ d = 4 \/ d = 5 \/ d = 6
               \/ d = 7 \/ d = 8 \/ d = 9)%Z) by lia.
  repeat (destruct E as [-> | E]; [reflexivity |]). subst. reflexivity.
Qed.

Lemma is_digit_mod10 (n : Z) : is_digit (digit_char (n mod 10)) = true.
Proof. apply is_digit_digit_char, Z.mod_pos_bound. lia. Qed.

Lemma decimal_digits_all_digits (fuel : nat) (n : Z) (acc : string) :
  all_digits acc = true -> all_digits (decimal_digits fuel n acc) = true.
Proof.
  revert n acc.
  induction fuel as [| fuel IH]; intros n acc Hacc; cbn [decimal_digits];
    [exact Hacc |].
  assert (Hacc' : all_digits (String (digit_char (n mod 10)) acc) = true)
    by (cbn [all_digits]; rewrite is_digit_mod10; exact Hacc).
  destruct (n / 10 =? 0)%Z; [exact Hacc' | apply IH; exact Hacc'].
Qed.

Lemma decimal_digits_nonempty (fuel : nat) (n : Z) (acc : string) :
  acc <> "" -> decimal_digits fuel n acc <> "".
Proof.
  revert n acc.
  induction fuel as [| fuel IH]; intros n acc Hacc; cbn [decimal_digits];
    [exact Hacc |].
  destruct (n / 10 =? 0)%Z; [discriminate | apply IH; discriminate].
Qed.

Lemma decimal_all_digits (n : Z) : all_digits (decimal n) = true.
Proof. apply decimal_digits_all_digits. reflexivity. Qed.

Lemma decimal_nonempty (n : Z) : decimal n <> "".
Proof.
  unfold decimal. cbn [decimal_digits].
  destruct (n / 10 =? 0)%Z; [discriminate |].
  apply decimal_digits_nonempty. discriminate.
Qed.

Lemma digit_is_not_minus (c : ascii) : is_digit c = true -> (c =? "-")%char = false.
Proof.
  intros H. destruct (Ascii.eqb_spec c "-") as [-> | _]; [discriminate H | reflexivity].
Qed.

Lemma digit_is_not_dot (c : ascii) : is_digit c = true -> (c =? ".")%char = false.
Proof.
  intros H. destruct (Ascii.eqb_spec c ".") as [-> | _]; [discriminate H | reflexivity].
Qed.

Lemma digits_comma_two_digits_append (ds tail : string) (seen : bool) :
  all_digits ds = true -> (seen = true \/ ds <> "") ->
  digits_comma_two_digits seen (ds ++ String "," tail) = two_digits tail.
Proof.
  revert seen. induction ds as [| c rest IH]; intros seen Hds Hseen; simpl.
  - destruct Hseen as [-> | Hne]; [reflexivity | congruence].
  - simpl in Hds. apply andb_prop in Hds. destruct Hds as [Hc Hrest].
    rewrite Hc. apply IH; [exact Hrest | left; reflexivity].
Qed.

Lemma replace_dot_after_digits (ds tail : string) :
  all_digits ds = true ->
  replace_dot (ds ++ String "." tail) = (ds ++ String "," tail)%string.
Proof.
  induction ds as [| c rest IH]; intros Hds; simpl; [reflexivity |].
  simpl in Hds. apply andb_prop in Hds. destruct Hds as [Hc Hrest].
  rewrite (digit_is_not_dot _ Hc), (IH Hrest). reflexivity.
Qed.

Lemma replace_dot_fixed2 (n : Z) : replace_dot (fixed2 n ".") = fixed2 n ",".
Proof. apply replace_dot_after_digits, decimal_all_digits. Qed.

Lemma two_decimal_comma_fixed2 (n : Z) (sign : string) :
  sign = "" \/ sign = "-" ->
  two_decimal_comma (sign ++ fixed2 n ",") = true.
Proof.
  intros Hsign.
  assert (Hbody : digits_comma_two_digits false (fixed2 n ",") = true).
  { unfold fixed2. change ("," ++ ?t)%string with (String "," t).
    rewrite digits_comma_two_digits_append
      by (try apply decimal_all_digits; right; apply decimal_nonempty).
    cbn [two_digits]. rewrite !is_digit_mod10. reflexivity. }
  destruct Hsign as [-> | ->]; [| exact Hbody].
  change ("" ++ fixed2 n ",")%string with (fixed2 n ",").
  unfold fixed2 in *.
  pose proof (decimal_all_digits (n / 100)) as Hall.
  pose proof (decimal_nonempty (n / 100)) as Hne.
  destruct (decimal (n / 100)) as [| c rest]; [congruence |].
  cbn [all_digits] in Hall. apply andb_prop in Hall. destruct Hall as [Hc _].
  unfold two_decimal_comma. cbn [append].
  rewrite (digit_is_not_minus _ Hc). exact Hbody.
Qed.

Lemma hundredths_nearest (q : Q) :
  - (1 # 2) < inject_Z (hundredths q) - 100 * Qabs q <= 1 # 2.
Proof.
  destruct q as [num den]. unfold hundredths. cbn [Qnum Qden Qabs].
  set (a := Z.abs num). set (d := Zpos den).
  assert (Hd : (0 < d)%Z) by (unfold d; lia).
  pose proof (Z.mul_div_le (200 * a + d) (2 * d) ltac:(lia)) as Hle.
  pose proof (Z.mul_succ_div_gt (200 * a + d) (2 * d) ltac:(lia)) as Hgt.
  set (n := ((200 * a + d) / (2 * d))%Z) in *.
  unfold Qlt, Qle, Qminus, Qplus, Qmult, Qopp, inject_Z. cbn [Qnum Qden].
  fold d. split; lia.
Qed.

Lemma formatDecimal_finite (L : Libs) (q : Q) :
  Qabs_lt_1e21 q = true ->
  formatDecimal L (JNum (Finite q))
  = ret (JStr (sign_of q ++ fixed2 (hundredths q) ",")).
Proof.
  intros Hrange. unfold formatDecimal, toFixed2. cbn [nullish negb].
  rewrite Hrange. do 2 f_equal. unfold sign_of.
  destruct (Qnum q <? 0)%Z.
  - change ("-" ++ ?t)%string with (String "-" t). cbn [replace_dot].
    change ("-" =? ".")%char with false. cbv iota.
    rewrite replace_dot_fixed2. reflexivity.
  - apply replace_dot_fixed2.
Qed.

Lemma Qabs_lt_1e21_spec (q : Q) :
  Qabs q < inject_Z (10 ^ 21) -> Qabs_lt_1e21 q = true.
Proof.
  destruct q as [num den]. unfold Qabs_lt_1e21, Qlt, inject_Z.
  cbn [Qabs Qnum Qden]. intros H. apply Z.ltb_lt. lia.
Qed.

(** C9, as the script has it.  A finite Number of magnitude below [10^21] is
    rendered as a two-decimal string with a comma: its sign, then the integer
    [n] nearest to a hundred times its magnitude, with the comma before the
    last two digits; so 3.14159 gives "3,14".  [undefined] and [null] give
    "Unknown".  In a row, a count ([releases], [major], [minor], [patch])
    that is missing from the drift record, or falsy, is the string "0". *)
Theorem formatDecimal_two_decimals
    (L : Libs) (q : Q) (dep : Dependency)
    (libyearDepResult npmCheckResult : JsValue)
    (node16Version node18Version node20Version : string) (row : Row) :
  Qabs q < inject_Z (10 ^ 21) ->
  outcome (Newer.formatDependencyResult L dep libyearDepResult npmCheckResult
             node16Version node18Version node20Version) = Ok row ->
  (exists n : Z,
      formatDecimal L (JNum (Finite q))
      = ret (JStr (sign_of q ++ fixed2 n ","))
      /\ - (1 # 2) < inject_Z n - 100 * Qabs q <= 1 # 2
      /\ two_decimal_comma (sign_of q ++ fixed2 n ",") = true)
  /\ formatDecimal L (JNum (Finite (314159 # 100000))) = ret (JStr "3,14")
  /\ formatDecimal L (JNum (Finite double_3_14159)) = ret (JStr "3,14")
  /\ formatDecimal L JUndefined = ret (JStr "Unknown")
  /\ formatDecimal L JNull = ret (JStr "Unknown")
  /\ forall count,
       In count ["releases"; "major"; "minor"; "patch"] ->
       truthy (prop_of libyearDepResult count) = false ->
       field row count = JStr "0".
Proof.
  intros Hrange Hrow. split; [| repeat split].
  - exists (hundredths q). split; [| split].
    + apply formatDecimal_finite, Qabs_lt_1e21_spec, Hrange.
    + apply hundredths_nearest.
    + apply two_decimal_comma_fixed2. unfold sign_of.
      destruct (Qnum q <? 0)%Z; [right | left]; reflexivity.
  - unfold Newer.formatDependencyResult in Hrow.
    invert_row Hrow drift Hdrift pulse Hpulse.
    intros count Hcount Hfalsy. unfold or_else.
    repeat (destruct Hcount as [<- | Hcount];
            [cbn; rewrite Hfalsy; reflexivity |]).
    destruct Hcount.
Qed.

Lemma formatDecimal_two_decimals_witness :
  formatDecimal Sample.libs (JNum (Finite (314159 # 100000)))
  = ret (JStr "3,14")
  /\ exists row,
       outcome (Newer.formatDependencyResult Sample.libs Sample.dep_b
                  JUndefined JUndefined "N/A" "N/A" "N/A") = Ok row
       /\ field row "releases" = JStr "0".
Proof.
  split; [| eexists; split; [reflexivity |]];
    refine (let H := formatDecimal_two_decimals Sample.libs (314159 # 100000)
                       Sample.dep_b JUndefined JUndefined "N/A" "N/A" "N/A"
                       _ eq_refl eq_refl in _).
  - exact (proj1 (proj2 H)).
  - exact (proj2 (proj2 (proj2 (proj2 (proj2 H))))
             "releases" (or_introl eq_refl) eq_refl).
Defined.

(** C9 as stated fails: not every Number gets two decimals.  [Infinity]
    (which [JSON.parse] returns for a literal such as [1e999]) is rendered
    "Infinity". *)
Lemma formatDecimal_not_two_decimals_for_every_number :
  ~ (forall (L : Libs) (x : JsNumber),
        exists s, formatDecimal L (JNum x) = ret (JStr s)
                  /\ two_decimal_comma s = true).
Proof.
  intros H. destruct (H Sample.libs (Infinity false)) as (s & Hs & Hshape).
  injection Hs as <-. discriminate Hshape.
Qed.

Example formatDecimal_nonfinite (L : Libs) :
  formatDecimal L (JNum (Infinity false)) = ret (JStr "Infinity")
  /\ formatDecimal L (JNum (Infinity true)) = ret (JStr "-Infinity")
  /\ formatDecimal L (JNum NaN) = ret (JStr "NaN")
  /\ formatDecimal L (JNum (Finite (inject_Z (10 ^ 21))))
     = ret (JStr (replace_dot (Number_toString L (inject_Z (10 ^ 21))))).
Proof. repeat split. Qed.

(** ** The compatibility results *)



Lemma find_by_name {B} (name : B -> string) (wanted : string) (ys : list B) :
  In wanted (map name ys) ->
  exists y, find (fun y => name y =? wanted) ys = Some y /\ name y = wanted.
Proof.
  induction ys as [| y rest IH]; intros Hin; simpl in *; [destruct Hin |].
  destruct (String.eqb_spec (name y) wanted) as [E | Hne]; [eauto |].
  apply IH. destruct Hin as [E | Hin]; [contradiction | exact Hin].
Qed.

Lemma findLatestCompatibleVersion_returns
    (L : Libs) (npmData : JsValue) (nodeVersion : string) :
  truthy npmData = false \/ nullish (prop_of npmData "versions") = false ->
  exists v, outcome (findLatestCompatibleVersion L npmData nodeVersion) = Ok v.
Proof.
  destruct (truthy npmData) eqn:Htruthy.
  - intros [H | H]; [discriminate |].
    destruct (Object_keys_returns _ H) as [keys Hkeys]. eexists.
    apply (findLatestCompatibleVersion_outcome L npmData nodeVersion keys
             Htruthy).
    rewrite Hkeys. reflexivity.
  - intros _. unfold findLatestCompatibleVersion. rewrite Htruthy.
    eexists. reflexivity.
Qed.

Lemma findLatestCompatibleVersion_throws
    (L : Libs) (npmData : JsValue) (nodeVersion : string) :
  truthy npmData = true -> nullish (prop_of npmData "versions") = true ->
  outcome (findLatestCompatibleVersion L npmData nodeVersion)
  = Throw (TypeError "Cannot convert undefined or null to object").
Proof.
  intros Htruthy Hversions. unfold findLatestCompatibleVersion.
  rewrite Htruthy. cbn [negb].
  rewrite (outcome_get_prop _ _ (truthy_not_nullish _ Htruthy)), bind_ret.
  unfold compatibleVersions.
  destruct (prop_of npmData "versions"); try discriminate; reflexivity.
Qed.











(** ** The join by name *)

Lemma find_item_outcome (p : JsValue -> M bool) (items : list JsValue) (v : JsValue) :
  outcome (find_item p items) = Ok v ->
  v = JUndefined \/ (In v items /\ outcome (p v) = Ok true).
Proof.
  induction items as [| item rest IH]; simpl; intros H.
  - injection H as <-. left. reflexivity.
  - apply outcome_bind_inv in H. destruct H as ([|] & Hp & H).
    + injection H as <-. right. split; [left; reflexivity | exact Hp].
    + destruct (IH H) as [E | [Hin Hv]]; [left; exact E |].
      right. split; [right; exact Hin | exact Hv].
Qed.

Lemma Array_find_outcome (arr : JsValue) (p : JsValue -> M bool) (v : JsValue) :
  outcome (Array_find arr p) = Ok v ->
  v = JUndefined
  \/ (exists items, arr = JArr items /\ In v items /\ outcome (p v) = Ok true).
Proof.
  destruct arr; simpl; try discriminate. intros H.
  destruct (find_item_outcome _ _ _ H) as [E | [Hin Hv]]; [left; exact E |].
  right. eauto.
Qed.

Lemma named_true (key name : string) (v : JsValue) :
  outcome (named key name v) = Ok true -> prop_of v key = JStr name.
Proof.
  unfold named, get_prop. destruct (nullish v); [discriminate |].
  rewrite bind_ret. cbn [outcome ret snd]. intros H. injection H as H.
  destruct (prop_of v key); try discriminate H.
  apply String.eqb_eq in H. congruence.
Qed.

Lemma formatDecimal_returns (L : Libs) (value : JsValue) :
  missing_or_number value = true ->
  exists s, outcome (formatDecimal L value) = Ok s
            /\ (nullish value = true -> s = JStr "Unknown").
Proof.
  destruct value; try discriminate; intros _; eexists; split;
    try reflexivity; discriminate.
Qed.

(** C6.  In the join of one declaration, when the two lookups over the
    collaborators' lists complete (each with a record or with the
    [undefined] of a miss), the compatibility results hold a record of the
    declaration's name, and the drift record found, if any, has Numbers for
    the [drift] and [pulse] it bears, the join appends exactly one row and
    does not throw.  The row bears the declaration's name, and so does every
    record that was found.  After a drift miss the row has "Unknown" for the
    latest version, drift and pulse and "0" for the four counts; after an
    outdated-check miss it has "Unknown" for latest and wanted and [false]
    for the two flags. *)
Theorem join_by_name_degrades_to_defaults
    (L : Libs) (libyearResults npmCheckResults : JsValue)
    (nodeCompatibilityResults : list Newer.NodeCompatibilityResult)
    (csvData : list Row) (dep : Dependency)
    (libyearDepResult npmCheckDepResult : JsValue) :
  outcome (Array_find libyearResults (named "dependency" (dependency dep)))
  = Ok libyearDepResult ->
  outcome (Array_find npmCheckResults (named "moduleName" (dependency dep)))
  = Ok npmCheckDepResult ->
  In (dependency dep) (map Newer.for_dependency nodeCompatibilityResults) ->
  missing_or_number (prop_of libyearDepResult "drift") = true ->
  missing_or_number (prop_of libyearDepResult "pulse") = true ->
  exists row nodeCompatibilityResult,
    outcome (Newer.joinDependency L libyearResults npmCheckResults
               nodeCompatibilityResults csvData dep)
    = Ok (csvData ++ [row])
    /\ field row "dependency" = JStr (dependency dep)
    /\ (libyearDepResult = JUndefined
        \/ prop_of libyearDepResult "dependency" = JStr (dependency dep))
    /\ (npmCheckDepResult = JUndefined
        \/ prop_of npmCheckDepResult "moduleName" = JStr (dependency dep))
    /\ Newer.find_compatibility nodeCompatibilityResults (dependency dep)
       = Some nodeCompatibilityResult
    /\ Newer.for_dependency nodeCompatibilityResult = dependency dep
    /\ (libyearDepResult = JUndefined ->
        field row "latestVersion" = JStr "Unknown"
        /\ field row "drift" = JStr "Unknown"
        /\ field row "pulse" = JStr "Unknown"
        /\ field row "releases" = JStr "0"
        /\ field row "major" = JStr "0"
        /\ field row "minor" = JStr "0"
        /\ field row "patch" = JStr "0")
    /\ (npmCheckDepResult = JUndefined ->
        field row "npmLatest" = JStr "Unknown"
        /\ field row "npmWanted" = JStr "Unknown"
        /\ field row "easyUpgrade" = JBool false
        /\ field row "unused" = JBool false).
Proof.
  intros Hlibyear Hnpm Hcompat Hdrift Hpulse.
  destruct (find_by_name Newer.for_dependency _ _ Hcompat) as (r & Hfind & Hname).
  destruct (formatDecimal_returns L _ Hdrift) as (drift & Hd & Hd0).
  destruct (formatDecimal_returns L _ Hpulse) as (pulse & Hp & Hp0).
  eexists. exists r.
  split; [| split; [| split; [| split; [| split; [| split; [| split]]]]]].
  - unfold Newer.joinDependency.
    rewrite (outcome_bind_Ok _ _ _ Hlibyear), (outcome_bind_Ok _ _ _ Hnpm).
    unfold Newer.find_compatibility. rewrite Hfind.
    unfold Newer.formatDependencyResult.
    rewrite !(outcome_get_prop _ _ (npmCheckData_not_nullish _)), !bind_ret.
    rewrite outcome_bind.
    rewrite (outcome_bind_Ok _ _ _ Hd), (outcome_bind_Ok _ _ _ Hp).
    reflexivity.
  - reflexivity.
  - destruct (Array_find_outcome _ _ _ Hlibyear) as [E | (items & _ & _ & Hv)];
      [left; exact E | right; apply named_true; exact Hv].
  - destruct (Array_find_outcome _ _ _ Hnpm) as [E | (items & _ & _ & Hv)];
      [left; exact E | right; apply named_true; exact Hv].
  - exact Hfind.
  - exact Hname.
  - intros ->. rewrite (Hd0 eq_refl), (Hp0 eq_refl). repeat split.
  - intros ->. repeat split.
Qed.

(** In the sample, [b] is in neither collaborator's list. *)
Lemma join_by_name_degrades_to_defaults_witness :
  exists row,
    outcome (Newer.joinDependency Sample.libs Sample.libyear_root
               Sample.npmCheck_root
               [ {| Newer.for_dependency := "b";
                    Newer.compatibility :=
                      {| Newer.node16Version := "N/A";
                         Newer.node18Version := "N/A";
                         Newer.node20Version := "N/A" |} |} ]
               [] Sample.dep_b)
    = Ok [row]
    /\ field row "dependency" = JStr "b"
    /\ field row "drift" = JStr "Unknown"
    /\ field row "releases" = JStr "0"
    /\ field row "easyUpgrade" = JBool false.
Proof.
  destruct (join_by_name_degrades_to_defaults
              Sample.libs Sample.libyear_root Sample.npmCheck_root
              [ {| Newer.for_dependency := "b";
                   Newer.compatibility :=
                     {| Newer.node16Version := "N/A";
                        Newer.node18Version := "N/A";
                        Newer.node20Version := "N/A" |} |} ]
              [] Sample.dep_b JUndefined JUndefined
              eq_refl eq_refl (or_introl eq_refl) eq_refl eq_refl)
    as (row & r & Hrow & Hname & _ & _ & _ & _ & Hdrift & Hnpm).
  exists row. split; [exact Hrow |]. split; [exact Hname |].
  destruct (Hdrift eq_refl) as (_ & Hd & _ & Hr & _).
  destruct (Hnpm eq_refl) as (_ & _ & He & _).
  repeat split; assumption.
Defined.

(** ** The loop over the manifests *)





Lemma runNpmCheck_outcome (L : Libs) (W : World) (packageJsonPath : string) :
  outcome (runNpmCheck L W packageJsonPath)
  = Ok (match npmCheck_packages W (path_dirname L packageJsonPath) with
        | Ok packages => packages
        | Throw _ => JArr []
        end).
Proof.
  unfold runNpmCheck. rewrite outcome_console.
  destruct (npmCheck_packages W (path_dirname L packageJsonPath)); reflexivity.
Qed.




Lemma foldM_throws {S A} (step : S -> A -> M S) (x : A) (xs : list A) :
  In x xs ->
  (forall state, exists e, outcome (step state x) = Throw e) ->
  forall state, exists e, outcome (foldM step xs state) = Throw e.
Proof.
  intros Hin Hthrow.
  induction xs as [| y rest IH]; [destruct Hin |]. intros state. simpl.
  rewrite outcome_bind.
  destruct (outcome (step state y)) as [state' | e] eqn:E.
  - destruct Hin as [-> | Hin]; [| apply IH; exact Hin].
    destruct (Hthrow state) as [e He]. congruence.
  - eauto.
Qed.



Example diagnostic_text_skips_manifest :
  outcome (Newer.processFile Sample.libs Sample.world "myproj" 2
             (2%nat, []) Sample.foo_file)
  = Ok (2%nat, []).
Proof. reflexivity. Qed.


Lemma runLibyearAnalysis_failure
    (L : Libs) (W : World) (packageJsonPath : string) (error : JsError) :
  exec_error (exec_libyear W (path_dirname L packageJsonPath)) = Some error ->
  runLibyearAnalysis L W packageJsonPath
  = ([ LogRunningLibyear;
       ErrLibyearExecution (path_dirname L packageJsonPath) error ],
     Throw error).
Proof. intros H. unfold runLibyearAnalysis. rewrite H. reflexivity. Qed.

Lemma processFile_throws_on_libyear_failure
    (L : Libs) (W : World) (rootDirName : string) (n : nat)
    (state : nat * list Row) (file : string) (error : JsError) :
  exec_error (exec_libyear W (path_dirname L file)) = Some error ->
  exists e, outcome (Newer.processFile L W rootDirName n state file) = Throw e.
Proof.
  intros H. destruct state as [i csvData]. unfold Newer.processFile.
  rewrite outcome_console, outcome_bind.
  destruct (outcome (analyzeDependencies L W file rootDirName)) as [deps | e];
    [| exists e; reflexivity].
  rewrite (runLibyearAnalysis_failure L W file error H).
  exists error. reflexivity.
Qed.

(** C1: what the script does.  When the [libyear] process fails for the
    directory of any located manifest, [runLibyearAnalysis] prints the error
    and rejects; nothing catches the rejection, so the loop stops at that
    manifest and the whole run ends in an exception, before any report is
    written. *)
Theorem libyear_failure_aborts_run
    (L : Libs) (W : World) (files : list string) (file : string)
    (error : JsError) :
  fs_existsSync W (rootDir_of W) = true ->
  located W (rootDir_of W) = Ok files ->
  In file files ->
  exec_error (exec_libyear W (path_dirname L file)) = Some error ->
  runLibyearAnalysis L W file
  = ([ LogRunningLibyear; ErrLibyearExecution (path_dirname L file) error ],
     Throw error)
  /\ (forall rootDirName n state,
        exists e,
          outcome (Newer.processFile L W rootDirName n state file) = Throw e)
  /\ exists e, outcome (Newer.main L W) = Throw e.
Proof.
  intros Hexists Hlocated Hin Hfails.
  split; [apply runLibyearAnalysis_failure; exact Hfails |].
  split; [intros; eapply processFile_throws_on_libyear_failure; exact Hfails |].
  unfold Newer.main. rewrite outcome_console, Hexists. cbn [negb].
  rewrite bind_ret, Hlocated.
  change (lift (Ok files)) with (ret files). rewrite bind_ret.
  destruct (foldM_throws
              (Newer.processFile L W (path_basename L (rootDir_of W))
                 (List.length files))
              file files Hin
              (fun state =>
                 processFile_throws_on_libyear_failure L W _ _ state file error
                   Hfails)
              (1%nat, [])) as [e He].
  exists e. apply outcome_bind_Throw. exact He.
Qed.

Lemma libyear_failure_aborts_run_witness :
  exists e,
    outcome (Newer.main Sample.libs Sample.world_libyear_fails) = Throw e.
Proof.
  exact (proj2 (proj2 (libyear_failure_aborts_run
                         Sample.libs Sample.world_libyear_fails
                         [Sample.root_file; Sample.foo_file] Sample.root_file
                         (HostError "Command failed: libyear --json")
                         eq_refl eq_refl (or_introl eq_refl) eq_refl))).
Defined.

(** When no [libyear] process fails, the same two manifests give a report:
    two rows for [myproj], none for [myproj/pkgs/foo], whose analysis
    printed diagnostics. *)
Example sample_run :
  exists report,
    outcome (Newer.main Sample.libs Sample.world) = Ok report
    /\ csv_path report = "analysis-result-myproj.csv"
    /\ map (fun row => (field row "module", field row "dependency"))
           (csv_records report)
       = [ (JStr "myproj", JStr "a"); (JStr "myproj", JStr "b") ].
Proof. eexists. repeat split. Qed.

(** * Further properties of the script *)

(** ** The manifest locator *)

Lemma FsNode_induction (P : FsNode -> Prop) :
  P FsFile ->
  (forall error, P (FsLocked error)) ->
  (forall error, P (FsDangling error)) ->
  (forall files, Forall (fun entry => P (snd entry)) files -> P (FsDir files)) ->
  forall node, P node.
Proof.
  intros Hfile Hlocked Hdangling Hdir.
  fix IH 1. intros [| files | error | error];
    [exact Hfile | | apply Hlocked | apply Hdangling].
  apply Hdir. induction files as [| [name child] rest IHfiles];
    constructor; [apply IH | exact IHfiles].
Qed.

Lemma bind_ext {A B} (m : M A) (k k' : A -> M B) :
  (forall a, k a = k' a) -> bind m k = bind m k'.
Proof.
  intros H. destruct m as [out [a | e]]; simpl; [rewrite H |]; reflexivity.
Qed.

Section LocatorProperties.

Variable path_join : string -> string -> string.

Let find := findPackageJsonFiles path_join.

Lemma findPackageJsonFiles_forEach (dir : string) (files : list (string * FsNode)) :
  find dir (FsDir files) = forEach path_join dir files [].
Proof.
  unfold find. cbn [findPackageJsonFiles].
  match goal with
  | |- ?loop files [] = _ =>
      assert (H : forall results,
                 loop files results = forEach path_join dir files results)
  end; [| apply H].
  induction files as [| [file stat] rest IH]; intros results; [reflexivity |].
  cbn [forEach]. rewrite <- (bind_ext _ _ _ IH).
  unfold visit. destruct stat; reflexivity.
Qed.

Lemma visit_outcome (found : M (list string)) (dir : string)
    (results results' : list string) (file : string) (stat : FsNode) :
  outcome (visit path_join found dir results file stat) = Ok results' ->
  (isDirectory stat = true /\ file <> "node_modules"
   /\ exists found', outcome found = Ok found' /\ results' = results ++ found')
  \/ (file = "package.json" /\ stat = FsFile
      /\ results' = results ++ [path_join dir "package.json"])
  \/ (results' = results
      /\ (isDirectory stat = false \/ file = "node_modules")
      /\ file <> "package.json"
      /\ forall error, stat <> FsDangling error).
Proof.
  unfold visit. intros H.
  assert (Hstat : forall error, stat <> FsDangling error)
    by (intros error ->; discriminate H).
  assert (H' :
    outcome (if isDirectory stat && negb (file =? "node_modules")
             then found' <- found ;; ret (results ++ found')
             else if file =? "package.json"
                  then ret (results ++ [path_join dir file])
                  else ret results) = Ok results')
    by (destruct stat; try exact H; discriminate H).
  clear H. destruct (isDirectory stat) eqn:Edir;
    destruct (String.eqb_spec file "node_modules") as [Enm | Enm];
    cbn [andb negb] in H'.
  - subst file. cbn in H'. injection H' as <-.
    right. right. repeat split; auto. discriminate.
  - apply outcome_bind_inv in H'. destruct H' as (found' & Hfound & H').
    injection H' as <-. left. eauto.
  - subst file. cbn in H'. injection H' as <-.
    right. right. repeat split; auto. discriminate.
  - destruct (String.eqb_spec file "package.json") as [Epkg | Epkg].
    + injection H' as <-. subst file. right. left.
      destruct stat; try discriminate Edir; [auto | ].
      exfalso. eapply Hstat. reflexivity.
    + injection H' as <-. right. right. auto.
Qed.

Lemma manifest_from_cons (dir : string) (file : string) (stat : FsNode)
    (rest : list (string * FsNode)) (path : string) :
  manifest_from path_join dir (FsDir ((file, stat) :: rest)) path <->
  (file = "package.json" /\ stat = FsFile
   /\ path = path_join dir "package.json")
  \/ (isDirectory stat = true /\ file <> "node_modules"
      /\ manifest_from path_join (path_join dir file) stat path)
  \/ manifest_from path_join dir (FsDir rest) path.
Proof.
  split.
  - intros H. inversion H as [d fs Hin | d fs name child p Hin Hd Hn Hm]; subst.
    + destruct Hin as [E | Hin].
      * injection E as -> ->. left. auto.
      * right. right. apply manifest_here. exact Hin.
    + destruct Hin as [E | Hin].
      * injection E as -> ->. right. left. auto.
      * right. right. eapply manifest_below; eassumption.
  - intros [(-> & -> & ->) | [(Hd & Hn & Hm) | H]].
    + apply manifest_here. left. reflexivity.
    + eapply manifest_below; [left; reflexivity | assumption ..].
    + inversion H as [d fs Hin | d fs name child p Hin Hd Hn Hm]; subst.
      * apply manifest_here. right. exact Hin.
      * eapply manifest_below; [right; exact Hin | assumption ..].
Qed.

Lemma forEach_finds (dir : string) (files : list (string * FsNode)) :
  Forall (fun entry =>
            forall dir results,
              outcome (find dir (snd entry)) = Ok results ->
              forall path, In path results
                           <-> manifest_from path_join dir (snd entry) path)
         files ->
  forall results results',
    outcome (forEach path_join dir files results) = Ok results' ->
    forall path,
      In path results'
      <-> In path results \/ manifest_from path_join dir (FsDir files) path.
Proof.
  induction files as [| [file stat] rest IH]; intros Hfiles results results' H path.
  - injection H as <-. split; [auto |].
    intros [Hin | Hm]; [exact Hin |].
    inversion Hm as [d fs Hin | d fs name child p Hin]; destruct Hin.
  - inversion Hfiles as [| entry fs Hstat Hrest]; subst.
    cbn [forEach] in H. apply outcome_bind_inv in H.
    destruct H as (results1 & Hvisit & H).
    rewrite (IH Hrest _ _ H path), manifest_from_cons.
    destruct (visit_outcome _ _ _ _ _ _ Hvisit)
      as [(Hd & Hn & found' & Hfound & ->)
         | [(-> & -> & ->) | (-> & Hskip & Hn & Hstat')]].
    + rewrite in_app_iff, (Hstat _ _ Hfound path). cbn [snd].
      intuition (subst; try discriminate; auto).
    + rewrite in_app_iff. cbn [In].
      intuition (subst; try discriminate; auto).
    + destruct Hskip as [Hskip | Hskip];
        intuition (subst; try discriminate; try congruence; auto).
Qed.

(** X1.  When the walk returns, it returns exactly the manifests meant to be
    found: the files named [package.json] in the root and in its
    subdirectories, reached without entering a directory named
    [node_modules]. *)
Theorem findPackageJsonFiles_sound_and_complete
    (dir : string) (node : FsNode) (results : list string) :
  outcome (findPackageJsonFiles path_join dir node) = Ok results ->
  forall path,
    In path results <-> manifest_from path_join dir node path.
Proof.
  revert dir results. induction node as [| error | error | files IH]
    using FsNode_induction; intros dir results H; try discriminate H.
  fold find in H. rewrite findPackageJsonFiles_forEach in H. intros path.
  rewrite (forEach_finds dir files IH _ _ H path). cbn [In]. tauto.
Qed.

Lemma isDirectory_without_node_modules (node : FsNode) :
  isDirectory (without_node_modules node) = isDirectory node.
Proof. destruct node; reflexivity. Qed.

Lemma forEach_without_node_modules (dir : string) (files : list (string * FsNode)) :
  Forall (fun entry =>
            forall dir, find dir (without_node_modules (snd entry))
                        = find dir (snd entry))
         files ->
  forall results,
    forEach path_join dir
      (map (fun entry =>
              (fst entry,
               if fst entry =? "node_modules"
               then if isDirectory (snd entry) then FsDir [] else snd entry
               else without_node_modules (snd entry)))
           files)
      results
    = forEach path_join dir files results.
Proof.
  induction files as [| [file stat] rest IH]; intros Hfiles results;
    [reflexivity |].
  inversion Hfiles as [| entry fs Hstat Hrest]; subst.
  cbn [snd] in Hstat. unfold find in Hstat.
  cbn [map forEach fst snd]. rewrite (bind_ext _ _ _ (IH Hrest)). f_equal.
  destruct (String.eqb_spec file "node_modules") as [-> | Hnm].
  - unfold visit. destruct stat; reflexivity.
  - rewrite (Hstat (path_join dir file)).
    unfold visit. rewrite isDirectory_without_node_modules.
    destruct stat; reflexivity.
Qed.

(** X2.  The walk never looks inside a directory named [node_modules]:
    emptying every such directory of a tree, even one that cannot be listed,
    changes nothing in what the walk returns, prints or throws. *)
Theorem findPackageJsonFiles_ignores_node_modules
    (dir : string) (node : FsNode) :
  findPackageJsonFiles path_join dir (without_node_modules node)
  = findPackageJsonFiles path_join dir node.
Proof.
  revert dir. induction node as [| error | error | files IH]
    using FsNode_induction; intros dir; try reflexivity.
  cbn [without_node_modules]. fold find.
  rewrite !findPackageJsonFiles_forEach.
  apply forEach_without_node_modules. exact IH.
Qed.

Lemma visit_throws (found : M (list string)) (dir : string)
    (results : list string) (file : string) (stat : FsNode) :
  (exists e, outcome (visit path_join found dir results file stat) = Throw e)
  <-> (exists error, stat = FsDangling error)
      \/ (isDirectory stat = true /\ file <> "node_modules"
          /\ exists e, outcome found = Throw e).
Proof.
  unfold visit. destruct stat as [| files | error | error]; cbn [isDirectory andb].
  - split; [intros [e H] | intros [[e H] | (H & _)]]; try discriminate.
    destruct (file =? "package.json"); discriminate H.
  - destruct (String.eqb_spec file "node_modules") as [-> | Hnm]; cbn [negb].
    + split; [intros [e H]; discriminate H | ].
      intros [[e H] | (_ & H & _)]; [discriminate | congruence].
    + rewrite outcome_bind. split.
      * intros [e H]. right. repeat split; auto.
        destruct (outcome found) as [found' | e']; [discriminate | eauto].
      * intros [[e H] | (_ & _ & e & H)]; [discriminate |].
        rewrite H. eauto.
  - destruct (String.eqb_spec file "node_modules") as [-> | Hnm]; cbn [negb].
    + split; [intros [e H]; discriminate H | ].
      intros [[e H] | (_ & H & _)]; [discriminate | congruence].
    + rewrite outcome_bind. split.
      * intros [e H]. right. repeat split; auto.
        destruct (outcome found) as [found' | e']; [discriminate | eauto].
      * intros [[e H] | (_ & _ & e & H)]; [discriminate |].
        rewrite H. eauto.
  - split; [intros _; left; exists error; reflexivity
           | intros _; exists error; reflexivity].
Qed.

Lemma blocked_cons (file : string) (stat : FsNode) (rest : list (string * FsNode)) :
  blocked (FsDir ((file, stat) :: rest)) <->
  (exists error, stat = FsDangling error)
  \/ (isDirectory stat = true /\ file <> "node_modules" /\ blocked stat)
  \/ blocked (FsDir rest).
Proof.
  split.
  - intros H. inversion H as [| | | fs name error Hin
                               | fs name child Hin Hd Hn Hb]; subst.
    + destruct Hin as [E | Hin]; [injection E as -> ->; eauto |].
      right. right. eapply blocked_entry. exact Hin.
    + destruct Hin as [E | Hin]; [injection E as -> ->; auto |].
      right. right. eapply blocked_below; eassumption.
  - intros [[error ->] | [(Hd & Hn & Hb) | H]].
    + eapply blocked_entry. left. reflexivity.
    + eapply blocked_below; [left; reflexivity | assumption ..].
    + inversion H as [| | | fs name error Hin
                       | fs name child Hin Hd Hn Hb]; subst.
      * eapply blocked_entry. right. exact Hin.
      * eapply blocked_below; [right; exact Hin | assumption ..].
Qed.

Lemma forEach_throws (dir : string) (files : list (string * FsNode)) :
  Forall (fun entry =>
            forall dir, (exists e, outcome (find dir (snd entry)) = Throw e)
                        <-> blocked (snd entry))
         files ->
  forall results,
    (exists e, outcome (forEach path_join dir files results) = Throw e)
    <-> blocked (FsDir files).
Proof.
  induction files as [| [file stat] rest IH]; intros Hfiles results.
  - split; [intros [e H]; discriminate H |].
    intros H. inversion H as [| | | fs name error Hin
                               | fs name child Hin]; destruct Hin.
  - inversion Hfiles as [| entry fs Hstat Hrest]; subst. cbn [snd] in Hstat.
    pose proof (visit_throws (find (path_join dir file) stat) dir results
                  file stat) as Hvisit.
    rewrite (Hstat (path_join dir file)) in Hvisit.
    rewrite blocked_cons. cbn [forEach]. rewrite outcome_bind. fold find.
    destruct (outcome (visit path_join (find (path_join dir file) stat)
                         dir results file stat)) as [results' | e].
    + rewrite (IH Hrest results'). split; [auto |].
      intros [H | [H | H]]; [| | exact H].
      * destruct (proj2 Hvisit (or_introl H)) as [e He]. discriminate He.
      * destruct (proj2 Hvisit (or_intror H)) as [e He]. discriminate He.
    + split; [intros _ | intros _; exists e; reflexivity].
      destruct (proj1 Hvisit (ex_intro _ e eq_refl)) as [H | H]; auto.
Qed.

(** X3.  The walk throws exactly when the tree is blocked: the root is not
    a directory that can be listed, or a directory it lists holds a name
    that [statSync] fails on (whatever the name), or a subdirectory not
    named [node_modules] is itself blocked.  Otherwise it returns. *)
Theorem findPackageJsonFiles_throws_iff_blocked (dir : string) (node : FsNode) :
  (exists e, outcome (findPackageJsonFiles path_join dir node) = Throw e)
  <-> blocked node.
Proof.
  revert dir. induction node as [| error | error | files IH]
    using FsNode_induction; intros dir.
  - split; [intros _; constructor | eexists; reflexivity].
  - split; [intros _; constructor | eexists; reflexivity].
  - split; [intros _; constructor | eexists; reflexivity].
  - fold find. rewrite findPackageJsonFiles_forEach.
    apply forEach_throws. exact IH.
Qed.

End LocatorProperties.

Lemma findPackageJsonFiles_sound_and_complete_witness :
  manifest_from SampleTree.join "myproj" SampleTree.tree
    "myproj/pkgs/foo/package.json"
  /\ ~ manifest_from SampleTree.join "myproj" SampleTree.tree
         "myproj/node_modules/a/package.json".
Proof.
  pose (H := findPackageJsonFiles_sound_and_complete SampleTree.join
               "myproj" SampleTree.tree
               [ "myproj/package.json"; "myproj/pkgs/foo/package.json" ]
               eq_refl).
  split.
  - apply (proj1 (H _)). right. left. reflexivity.
  - intros Hm. apply (proj2 (H _)) in Hm.
    destruct Hm as [E | [E | []]]; discriminate E.
Defined.

Example sample_walk :
  findPackageJsonFiles SampleTree.join "myproj" SampleTree.tree
  = ret [ "myproj/package.json"; "myproj/pkgs/foo/package.json" ]
  /\ outcome (findPackageJsonFiles SampleTree.join "myproj"
                SampleTree.tree_with_dangling_link)
     = Throw (HostError "ENOENT: no such file or directory").
Proof. split; reflexivity. Qed.

(** ** Rows, manifest by manifest *)

Lemma Newer_formatDependencyResult_fields
    (L : Libs) (dep : Dependency) (libyearDepResult npmCheckResult : JsValue)
    (node16Version node18Version node20Version : string) (row : Row) :
  outcome (Newer.formatDependencyResult L dep libyearDepResult npmCheckResult
             node16Version node18Version node20Version) = Ok row ->
  map fst row = map fst Newer.header
  /\ field row "module" = JStr (module dep)
  /\ field row "dependency" = JStr (dependency dep)
  /\ field row "type" = JStr (type dep)
  /\ field row "currentVersion" = version dep
  /\ field row "node16Version" = JStr node16Version
  /\ field row "node18Version" = JStr node18Version
  /\ field row "node20Version" = JStr node20Version
  /\ field row "npmLatest"
     = or_else (prop_of (or_else npmCheckResult (JObj [])) "latest")
               (JStr "Unknown")
  /\ field row "npmWanted"
     = or_else (prop_of (or_else npmCheckResult (JObj [])) "packageWanted")
               (JStr "Unknown")
  /\ field row "easyUpgrade"
     = or_else (prop_of (or_else npmCheckResult (JObj [])) "easyUpgrade")
               (JBool false)
  /\ field row "unused"
     = or_else (prop_of (or_else npmCheckResult (JObj [])) "unused")
               (JBool false).
Proof.
  intros H. unfold Newer.formatDependencyResult in H.
  invert_row H drift Hdrift pulse Hpulse. repeat split.
Qed.

Lemma Newer_joinDependency_inv
    (L : Libs) (libyearResults npmCheckResults : JsValue)
    (nodeCompatibilityResults : list Newer.NodeCompatibilityResult)
    (csvData csvData' : list Row) (dep : Dependency) :
  outcome (Newer.joinDependency L libyearResults npmCheckResults
             nodeCompatibilityResults csvData dep) = Ok csvData' ->
  exists libyearDepResult npmCheckDepResult r row,
    outcome (Array_find libyearResults (named "dependency" (dependency dep)))
    = Ok libyearDepResult
    /\ outcome (Array_find npmCheckResults
                  (named "moduleName" (dependency dep)))
       = Ok npmCheckDepResult
    /\ Newer.find_compatibility nodeCompatibilityResults (dependency dep)
       = Some r
    /\ outcome (Newer.formatDependencyResult L dep libyearDepResult
                  npmCheckDepResult
                  (Newer.node16Version (Newer.compatibility r))
                  (Newer.node18Version (Newer.compatibility r))
                  (Newer.node20Version (Newer.compatibility r))) = Ok row
    /\ csvData' = csvData ++ [row].
Proof.
  unfold Newer.joinDependency. intros H.
  apply outcome_bind_inv in H. destruct H as (lr & Hlr & H).
  apply outcome_bind_inv in H. destruct H as (nr & Hnr & H).
  fold (Newer.find_compatibility nodeCompatibilityResults (dependency dep)) in H.
  destruct (Newer.find_compatibility nodeCompatibilityResults (dependency dep))
    as [r |] eqn:Hfind; [| discriminate H].
  apply outcome_bind_inv in H. destruct H as (row & Hrow & H).
  injection H as <-. exists lr, nr, r, row. auto.
Qed.

Lemma foldM_rows {A} (step : list Row -> A -> M (list Row))
    (R : A -> Row -> Prop) (xs : list A) :
  (forall csvData x csvData',
      In x xs -> outcome (step csvData x) = Ok csvData' ->
      exists row, csvData' = csvData ++ [row] /\ R x row) ->
  forall csvData csvData',
    outcome (foldM step xs csvData) = Ok csvData' ->
    exists rows, csvData' = csvData ++ rows /\ Forall2 R xs rows.
Proof.
  induction xs as [| x rest IH]; intros Hstep csvData csvData' H; simpl in H.
  - injection H as <-. exists []. rewrite app_nil_r. split; constructor.
  - apply outcome_bind_inv in H. destruct H as (csvData1 & Hx & H).
    destruct (Hstep _ _ _ (or_introl eq_refl) Hx) as (row & -> & Hrow).
    destruct (IH (fun c y c' Hy => Hstep c y c' (or_intror Hy)) _ _ H)
      as (rows & -> & Hrows).
    exists (row :: rows). rewrite <- app_assoc. split; [reflexivity |].
    constructor; assumption.
Qed.

Lemma Newer_processFile_inv
    (L : Libs) (W : World) (rootDirName : string) (n i i' : nat)
    (csvData csvData' : list Row) (file : string) :
  outcome (Newer.processFile L W rootDirName n (i, csvData) file)
  = Ok (i', csvData') ->
  exists dependencies libyearResults results,
    outcome (analyzeDependencies L W file rootDirName) = Ok dependencies
    /\ outcome (runLibyearAnalysis L W file) = Ok libyearResults
    /\ outcome (Newer.runNodeCompatibility L W dependencies) = Ok results
    /\ ((isArray libyearResults = false /\ i' = i /\ csvData' = csvData)
        \/ (isArray libyearResults = true /\ i' = (i + 1)%nat
            /\ outcome
                 (foldM (Newer.joinDependency L libyearResults
                           (match npmCheck_packages W (path_dirname L file) with
                            | Ok packages => packages
                            | Throw _ => JArr []
                            end) results)
                        dependencies csvData) = Ok csvData')).
Proof.
  unfold Newer.processFile. rewrite outcome_console. intros H.
  apply outcome_bind_inv in H. destruct H as (deps & Hdeps & H).
  apply outcome_bind_inv in H. destruct H as (lrs & Hlrs & H).
  rewrite (outcome_bind_Ok _ _ _ (runNpmCheck_outcome L W file)) in H.
  apply outcome_bind_inv in H. destruct H as (results & Hresults & H).
  exists deps, lrs, results. repeat (split; [assumption |]).
  destruct lrs; cbn [truthy isArray negb orb] in H;
    try (rewrite ?orb_true_r in H; rewrite outcome_console in H;
         injection H as <- <-; left; auto).
  right. apply outcome_bind_inv in H. destruct H as (csv1 & Hfold & H).
  injection H as <- <-. auto.
Qed.

Lemma Newer_processFile_rows
    (L : Libs) (W : World) (rootDirName : string) (n i i' : nat)
    (csvData csvData' : list Row) (file : string) :
  outcome (Newer.processFile L W rootDirName n (i, csvData) file)
  = Ok (i', csvData') ->
  exists dependencies,
    outcome (analyzeDependencies L W file rootDirName) = Ok dependencies
    /\ ((i' = i /\ csvData' = csvData)
        \/ (i' = (i + 1)%nat
            /\ exists rows,
                 csvData' = csvData ++ rows
                 /\ Forall2
                      (fun dep row =>
                         map fst row = map fst Newer.header
                         /\ field row "module" = JStr (module dep)
                         /\ field row "dependency" = JStr (dependency dep)
                         /\ field row "type" = JStr (type dep)
                         /\ field row "currentVersion" = version dep)
                      dependencies rows)).
Proof.
  intros H. apply Newer_processFile_inv in H.
  destruct H as (deps & lrs & results & Hdeps & _ & _ & H).
  exists deps. split; [exact Hdeps |].
  destruct H as [(_ & -> & ->) | (_ & -> & Hfold)]; [left; auto | right].
  split; [reflexivity |].
  apply (foldM_rows _ _ _) with (2 := Hfold).
  intros csv dep csv' _ Hjoin. apply Newer_joinDependency_inv in Hjoin.
  destruct Hjoin as (lr & nr & r & row & _ & _ & _ & Hrow & ->).
  exists row. split; [reflexivity |].
  apply Newer_formatDependencyResult_fields in Hrow. tauto.
Qed.

(** X4.  Whenever the processing of one manifest returns, it either left
    the counter and the buffer alone (the drift analysis gave no list), or
    advanced the counter by one and appended exactly one row per declaration
    of the manifest, in the order of the declarations, each row with the
    header's columns in the header's order and with its declaration's module
    label, name, type and declared range. *)
Theorem processFile_rows_follow_declarations
    (L : Libs) (W : World) (rootDirName : string) (n i i' : nat)
    (csvData csvData' : list Row) (file : string) :
  outcome (Newer.processFile L W rootDirName n (i, csvData) file)
  = Ok (i', csvData') ->
  exists dependencies,
    outcome (analyzeDependencies L W file rootDirName) = Ok dependencies
    /\ ((i' = i /\ csvData' = csvData)
        \/ (i' = (i + 1)%nat
            /\ exists rows,
                 csvData' = csvData ++ rows
                 /\ Forall2
                      (fun dep row =>
                         map fst row = map fst Newer.header
                         /\ field row "module" = JStr (module dep)
                         /\ field row "dependency" = JStr (dependency dep)
                         /\ field row "type" = JStr (type dep)
                         /\ field row "currentVersion" = version dep)
                      dependencies rows)).
Proof.
  intros H. apply Newer_processFile_inv in H.
  destruct H as (deps & lrs & results & Hdeps & _ & _ & H).
  exists deps. split; [exact Hdeps |].
  destruct H as [(_ & -> & ->) | (_ & -> & Hfold)]; [left; auto | right].
  split; [reflexivity |].
  apply (foldM_rows _ _ _) with (2 := Hfold).
  intros csv dep csv' _ Hjoin. apply Newer_joinDependency_inv in Hjoin.
  destruct Hjoin as (lr & nr & r & row & _ & _ & _ & Hrow & ->).
  exists row. split; [reflexivity |].
  apply Newer_formatDependencyResult_fields in Hrow. tauto.
Qed.

Lemma processFile_rows_follow_declarations_witness :
  exists rows,
    Forall2 (fun dep row => field row "dependency" = JStr (dependency dep))
            [Sample.dep_a; Sample.dep_b] rows.
Proof.
  destruct (processFile_rows_follow_declarations
              Sample.libs Sample.world "myproj" 2 1 2 [] _ Sample.root_file
              eq_refl)
    as (deps & Hdeps & [(Hi & _) | (_ & rows & _ & Hrows)]);
    [discriminate Hi |].
  injection Hdeps as <-. exists rows.
  eapply Forall2_impl; [| exact Hrows]. cbv beta. tauto.
Defined.

(** ** The report *)

Lemma mapM_Forall {A B} (f : A -> M B) (P : B -> Prop) (xs : list A) (ys : list B) :
  (forall x y, outcome (f x) = Ok y -> P y) ->
  outcome (mapM f xs) = Ok ys -> Forall P ys.
Proof.
  intros HP. revert ys. induction xs as [| x rest IH]; intros ys H; simpl in H.
  - injection H as <-. constructor.
  - apply outcome_bind_inv in H. destruct H as (y & Hy & H).
    apply outcome_bind_inv in H. destruct H as (ys' & Hys & H).
    injection H as <-. constructor; [eapply HP; exact Hy | apply IH; exact Hys].
Qed.

Lemma declarations_modules
    (deps : JsValue) (kind label : string) (found : list Dependency) :
  outcome (declarations deps kind label) = Ok found ->
  Forall (fun dep => module dep = label /\ type dep = kind) found.
Proof.
  unfold declarations. intros H.
  apply outcome_bind_inv in H. destruct H as (keys & _ & H).
  apply (mapM_Forall _ _ _ _) with (2 := H). intros key dep Hdep.
  apply outcome_bind_inv in Hdep. destruct Hdep as (v & _ & Hdep).
  injection Hdep as <-. split; reflexivity.
Qed.

Lemma analyzeDependencies_modules
    (L : Libs) (W : World) (packageJsonPath rootDirName : string)
    (dependencies : list Dependency) :
  outcome (analyzeDependencies L W packageJsonPath rootDirName)
  = Ok dependencies ->
  Forall (fun dep => module dep = moduleLabel L packageJsonPath rootDirName)
         dependencies.
Proof.
  unfold analyzeDependencies. rewrite outcome_console. intros H.
  apply outcome_bind_inv in H. destruct H as (packageJson & _ & H).
  apply outcome_bind_inv in H. destruct H as (d & _ & H).
  apply outcome_bind_inv in H. destruct H as (dd & _ & H).
  apply outcome_bind_inv in H. destruct H as (production & Hprod & H).
  apply outcome_bind_inv in H. destruct H as (development & Hdev & H).
  injection H as <-. apply Forall_app. split.
  - eapply Forall_impl; [| exact (declarations_modules _ _ _ _ Hprod)].
    cbv beta. tauto.
  - eapply Forall_impl; [| exact (declarations_modules _ _ _ _ Hdev)].
    cbv beta. tauto.
Qed.

Lemma Forall2_right {A B} (R : A -> B -> Prop) (xs : list A) (ys : list B) :
  Forall2 R xs ys -> Forall (fun y => exists x, In x xs /\ R x y) ys.
Proof.
  induction 1 as [| x y xs ys HR _ IH]; constructor.
  - exists x. split; [left; reflexivity | exact HR].
  - eapply Forall_impl; [| exact IH]. cbv beta.
    intros b (a & Hin & Hab). exists a. split; [right; exact Hin | exact Hab].
Qed.

Lemma foldM_processFile_stems_from
    (L : Libs) (W : World) (rootDirName : string) (n : nat)
    (files visited : list string) :
  (forall file, In file visited -> In file files) ->
  forall state state',
    outcome (foldM (Newer.processFile L W rootDirName n) visited state)
    = Ok state' ->
    Forall (stems_from L W rootDirName files) (snd state) ->
    Forall (stems_from L W rootDirName files) (snd state').
Proof.
  induction visited as [| file rest IH]; intros Hsub state state' H Hstate;
    simpl in H.
  - injection H as <-. exact Hstate.
  - apply outcome_bind_inv in H. destruct H as ([i1 csv1] & Hfile & H).
    apply (IH (fun f Hf => Hsub f (or_intror Hf)) _ _ H).
    destruct state as [i csv]. cbn [snd] in *.
    destruct (Newer_processFile_rows _ _ _ _ _ _ _ _ _ Hfile)
      as (deps & Hdeps & [(_ & ->) | (_ & rows & -> & Hrows)]);
      [exact Hstate |].
    apply Forall_app. split; [exact Hstate |].
    pose proof (analyzeDependencies_modules _ _ _ _ _ Hdeps) as Hmodules.
    rewrite Forall_forall in Hmodules.
    apply Forall2_right in Hrows.
    eapply Forall_impl; [| exact Hrows]. cbv beta.
    intros row (dep & Hin & Hkeys & Hmodule & Hname & Htype & Hversion).
    split; [exact Hkeys |]. exists file, deps, dep.
    rewrite Hmodule, (Hmodules dep Hin).
    repeat split; auto. apply Hsub. left. reflexivity.
Qed.

(** X5.  Whenever the run ends with a report, the root directory exists,
    the report is named after its basename, is semicolon-delimited and has
    the fixed header; and every record stems from a declaration of a located
    manifest: it has the header's columns in the header's order, that
    declaration's name, type and range, and the module label of that
    manifest. *)
Theorem report_records_stem_from_located_manifests
    (L : Libs) (W : World) (report : CsvFile) :
  outcome (Newer.main L W) = Ok report ->
  fs_existsSync W (rootDir_of W) = true
  /\ csv_path report
     = ("analysis-result-" ++ path_basename L (rootDir_of W) ++ ".csv")%string
  /\ csv_fieldDelimiter report = ";"
  /\ csv_header report = Newer.header
  /\ exists files,
       located W (rootDir_of W) = Ok files
       /\ Forall (stems_from L W (path_basename L (rootDir_of W)) files)
                 (csv_records report).
Proof.
  unfold Newer.main. rewrite outcome_console. intros H.
  destruct (fs_existsSync W (rootDir_of W)) eqn:Hexists;
    [| discriminate H]. cbn [negb] in H. rewrite bind_ret in H.
  apply outcome_bind_inv in H. destruct H as (files & Hfiles & H).
  apply outcome_bind_inv in H. destruct H as (final & Hfinal & H).
  unfold Newer.generateCsv in H. rewrite outcome_bind in H.
  rewrite outcome_console in H. cbn [outcome ret snd] in H.
  rewrite outcome_console in H. injection H as <-. cbn.
  repeat split. exists files. split.
  - destruct (located W (rootDir_of W)); [| discriminate Hfiles].
    injection Hfiles as ->. reflexivity.
  - apply (foldM_processFile_stems_from L W _ _ files files
             (fun f Hf => Hf) _ _ Hfinal).
    constructor.
Qed.

Lemma report_records_stem_from_located_manifests_witness :
  exists report,
    outcome (Newer.main Sample.libs Sample.world) = Ok report
    /\ csv_path report = "analysis-result-myproj.csv"
    /\ Forall (fun row => map fst row = map fst Newer.header)
              (csv_records report).
Proof.
  eexists. split; [reflexivity |].
  destruct (report_records_stem_from_located_manifests
              Sample.libs Sample.world _ eq_refl)
    as (_ & Hpath & _ & _ & files & _ & Hrecords).
  split; [exact Hpath |].
  eapply Forall_impl; [| exact Hrecords]. intros row Hrow. exact (proj1 Hrow).
Defined.

(** X6.  When the root directory does not exist the run prints the
    starting line and the name of the directory it looked for (the
    argument, or [./] when the argument is missing or empty), and exits with
    status 1: it lists nothing, reads no manifest, starts no process, sends
    no request and writes no report, whatever the rest of the machine
    holds. *)
Theorem missing_root_directory_exits
    (L : Libs) (W W' : World) :
  fs_existsSync W (rootDir_of W) = false ->
  argv_2 W' = argv_2 W ->
  fs_existsSync W' (rootDir_of W) = false ->
  Newer.main L W
  = ([ LogStarting; ErrDirectoryNotFound (rootDir_of W) ],
     Throw (ProcessExit 1))
  /\ Newer.main L W' = Newer.main L W
  /\ (argv_2 W = None \/ argv_2 W = Some "" -> rootDir_of W = "./").
Proof.
  intros Hmissing Hargv Hmissing'.
  assert (Hroot : rootDir_of W' = rootDir_of W)
    by (unfold rootDir_of; rewrite Hargv; reflexivity).
  assert (Hmain : forall V, rootDir_of V = rootDir_of W ->
                    fs_existsSync V (rootDir_of W) = false ->
                    Newer.main L V
                    = ([ LogStarting; ErrDirectoryNotFound (rootDir_of W) ],
                       Throw (ProcessExit 1))).
  { intros V HV Hno. unfold Newer.main. rewrite HV, Hno. reflexivity. }
  split; [apply Hmain; [reflexivity | exact Hmissing] |].
  split.
  - rewrite (Hmain W' Hroot Hmissing'), (Hmain W eq_refl Hmissing). reflexivity.
  - unfold rootDir_of. intros [-> | ->]; reflexivity.
Qed.

Lemma missing_root_directory_exits_witness :
  Newer.main Sample.libs SampleRuns.world_without_root
  = ([ LogStarting; ErrDirectoryNotFound "./" ], Throw (ProcessExit 1))
  /\ Newer.main Sample.libs SampleRuns.world_without_anything
     = Newer.main Sample.libs SampleRuns.world_without_root.
Proof.
  destruct (missing_root_directory_exits Sample.libs
              SampleRuns.world_without_root SampleRuns.world_without_anything
              eq_refl eq_refl eq_refl) as (Hexit & Hsame & _).
  split; [exact Hexit | exact Hsame].
Defined.



(** ** The manifest parser, further *)

Lemma analyzeDependencies_returns
    (L : Libs) (W : World) (packageJsonPath rootDirName : string)
    (packageJson : JsValue) :
  read_manifest W packageJsonPath = Ok packageJson ->
  nullish packageJson = false ->
  exists production development,
    outcome (declarations
               (or_else (prop_of packageJson "dependencies") (JObj []))
               "production" (moduleLabel L packageJsonPath rootDirName))
    = Ok production
    /\ outcome (declarations
                  (or_else (prop_of packageJson "devDependencies") (JObj []))
                  "development" (moduleLabel L packageJsonPath rootDirName))
       = Ok development
    /\ outcome (analyzeDependencies L W packageJsonPath rootDirName)
       = Ok (production ++ development).
Proof.
  intros Hread Hobject.
  destruct (declarations_outcome
              (or_else (prop_of packageJson "dependencies") (JObj []))
              "production" (moduleLabel L packageJsonPath rootDirName)
              (or_else_object_not_nullish _)) as [keys Hprod].
  destruct (declarations_outcome
              (or_else (prop_of packageJson "devDependencies") (JObj []))
              "development" (moduleLabel L packageJsonPath rootDirName)
              (or_else_object_not_nullish _)) as [devKeys Hdev].
  eexists. eexists. split; [exact Hprod |]. split; [exact Hdev |].
  unfold analyzeDependencies. rewrite outcome_console, Hread.
  change (lift (Ok packageJson)) with (ret packageJson).
  rewrite bind_ret, !(outcome_get_prop _ _ Hobject), !bind_ret.
  rewrite (outcome_bind_Ok _ _ _ Hprod), (outcome_bind_Ok _ _ _ Hdev).
  reflexivity.
Qed.

Lemma assoc_of_entry (props : list (string * JsValue)) (key : string) (v : JsValue) :
  NoDup (map fst props) -> In (key, v) props -> assoc key props = Some v.
Proof.
  induction props as [| [k w] rest IH]; intros Hnodup Hin; [destruct Hin |].
  inversion Hnodup as [| k' ks Hfresh Hrest]; subst. cbn [assoc].
  destruct Hin as [E | Hin].
  - injection E as -> ->. rewrite String.eqb_refl. reflexivity.
  - destruct (String.eqb_spec k key) as [-> | _]; [| apply IH; assumption].
    exfalso. apply Hfresh. apply (in_map fst) in Hin. exact Hin.
Qed.

Lemma declarations_of_object
    (props : list (string * JsValue)) (kind label : string) :
  NoDup (map fst props) ->
  outcome (declarations (JObj props) kind label)
  = Ok (map (declaration_of kind label) props).
Proof.
  intros Hnodup. unfold declarations. cbn [Object_keys]. rewrite bind_ret.
  rewrite (mapM_pure _ (fun key => {| dependency := key; type := kind;
                                      version := prop_of (JObj props) key;
                                      module := label |})).
  - rewrite map_map. f_equal. apply map_ext_in. intros [key v] Hin.
    unfold declaration_of. cbn [fst snd prop_of].
    rewrite (assoc_of_entry _ _ _ Hnodup Hin). reflexivity.
  - intros key _. rewrite outcome_get_prop by reflexivity.
    rewrite bind_ret. reflexivity.
Qed.

(** X8.  A manifest whose two groups are objects yields one declaration
    per entry: those of [dependencies] first, as production, then those of
    [devDependencies], as development, each group in the order of its keys
    and each declaration with its entry's name and range; a name present in
    both groups is declared twice. *)
Theorem analyzeDependencies_declares_every_entry
    (L : Libs) (W : World) (packageJsonPath rootDirName : string)
    (packageJson : JsValue) (production development : list (string * JsValue)) :
  read_manifest W packageJsonPath = Ok packageJson ->
  nullish packageJson = false ->
  prop_of packageJson "dependencies" = JObj production ->
  prop_of packageJson "devDependencies" = JObj development ->
  NoDup (map fst production) ->
  NoDup (map fst development) ->
  outcome (analyzeDependencies L W packageJsonPath rootDirName)
  = Ok (map (declaration_of "production"
               (moduleLabel L packageJsonPath rootDirName)) production
        ++ map (declaration_of "development"
                  (moduleLabel L packageJsonPath rootDirName)) development).
Proof.
  intros Hread Hobject Hprod Hdev Hnp Hnd.
  destruct (analyzeDependencies_returns L W packageJsonPath rootDirName
              packageJson Hread Hobject) as (p & d & Hp & Hd & Hreturn).
  rewrite Hprod in Hp. rewrite Hdev in Hd.
  change (or_else (JObj production) (JObj [])) with (JObj production) in Hp.
  change (or_else (JObj development) (JObj [])) with (JObj development) in Hd.
  rewrite (declarations_of_object _ _ _ Hnp) in Hp.
  rewrite (declarations_of_object _ _ _ Hnd) in Hd.
  injection Hp as <-. injection Hd as <-. exact Hreturn.
Qed.

Lemma analyzeDependencies_declares_every_entry_witness :
  outcome (analyzeDependencies Sample.libs Sample.world Sample.root_file
             "myproj")
  = Ok [ Sample.dep_a; Sample.dep_b ].
Proof.
  refine (analyzeDependencies_declares_every_entry
            Sample.libs Sample.world Sample.root_file "myproj"
            Sample.root_manifest [ ("a", JStr "^1.0.0") ]
            [ ("b", JStr "~2.0.0") ] eq_refl eq_refl eq_refl eq_refl _ _);
    repeat constructor; intros [].
Defined.

(** X9.  A manifest that has neither group (or has them empty, [null] or
    otherwise falsy) declares nothing, without any error: absence of a group
    is not a failure. *)
Theorem analyzeDependencies_without_groups
    (L : Libs) (W : World) (packageJsonPath rootDirName : string)
    (packageJson : JsValue) :
  read_manifest W packageJsonPath = Ok packageJson ->
  nullish packageJson = false ->
  truthy (prop_of packageJson "dependencies") = false ->
  truthy (prop_of packageJson "devDependencies") = false ->
  analyzeDependencies L W packageJsonPath rootDirName = ([LogAnalyzing], Ok []).
Proof.
  intros Hread Hobject Hprod Hdev. unfold analyzeDependencies.
  rewrite Hread. change (lift (Ok packageJson)) with (ret packageJson).
  rewrite bind_ret, !(outcome_get_prop _ _ Hobject), !bind_ret.
  unfold or_else. rewrite Hprod, Hdev. reflexivity.
Qed.

Lemma analyzeDependencies_without_groups_witness :
  analyzeDependencies Sample.libs SampleRuns.world_with_bare_manifest
    "package.json" "."
  = ([LogAnalyzing], Ok []).
Proof.
  exact (analyzeDependencies_without_groups
           Sample.libs SampleRuns.world_with_bare_manifest "package.json" "."
           SampleRuns.bare_manifest eq_refl eq_refl eq_refl eq_refl).
Defined.

Lemma analyzeDependencies_throws
    (L : Libs) (W : World) (packageJsonPath rootDirName : string) :
  (exists error, read_manifest W packageJsonPath = Throw error)
  \/ (exists packageJson, read_manifest W packageJsonPath = Ok packageJson
                          /\ nullish packageJson = true) ->
  exists e,
    outcome (analyzeDependencies L W packageJsonPath rootDirName) = Throw e.
Proof.
  unfold analyzeDependencies. rewrite outcome_console.
  intros [[error H] | (packageJson & H & Hnull)]; rewrite H.
  - exists error. reflexivity.
  - change (lift (Ok packageJson)) with (ret packageJson). rewrite bind_ret.
    unfold get_prop. rewrite Hnull. eexists. reflexivity.
Qed.

(** X10.  [analyzeDependencies] throws exactly when the manifest cannot be
    read or parsed, or parses to [null]; and then, for a located manifest,
    the whole run ends in an exception without a report, whatever the other
    manifests hold. *)
Theorem unreadable_manifest_aborts_run
    (L : Libs) (W : World) (files : list string) (file : string) :
  fs_existsSync W (rootDir_of W) = true ->
  located W (rootDir_of W) = Ok files ->
  In file files ->
  ((exists e,
       outcome (analyzeDependencies L W file (path_basename L (rootDir_of W)))
       = Throw e)
   <-> (exists error, read_manifest W file = Throw error)
       \/ (exists packageJson, read_manifest W file = Ok packageJson
                               /\ nullish packageJson = true))
  /\ ((exists e,
          outcome (analyzeDependencies L W file
                     (path_basename L (rootDir_of W))) = Throw e) ->
      exists e, outcome (Newer.main L W) = Throw e).
Proof.
  intros Hexists Hlocated Hin. split.
  - split; [| apply analyzeDependencies_throws].
    intros [e He].
    destruct (read_manifest W file) as [packageJson | error] eqn:Hread;
      [| left; eauto].
    right. exists packageJson. split; [reflexivity |].
    destruct (nullish packageJson) eqn:Hnull; [reflexivity |].
    destruct (analyzeDependencies_returns L W file
                (path_basename L (rootDir_of W)) packageJson Hread Hnull)
      as (p & d & _ & _ & Hreturn).
    rewrite Hreturn in He. discriminate He.
  - intros [e He]. unfold Newer.main.
    rewrite outcome_console, Hexists. cbn [negb].
    rewrite bind_ret, Hlocated.
    change (lift (Ok files)) with (ret files). rewrite bind_ret.
    destruct (foldM_throws
                (Newer.processFile L W (path_basename L (rootDir_of W))
                   (List.length files))
                file files Hin) with (state := (1%nat, @nil Row))
      as [e' He'].
    + intros [i csvData]. exists e. unfold Newer.processFile.
      rewrite outcome_console. apply outcome_bind_Throw. exact He.
    + exists e'. apply outcome_bind_Throw. exact He'.
Qed.

Lemma unreadable_manifest_aborts_run_witness :
  exists e,
    outcome (Newer.main Sample.libs SampleRuns.world_with_broken_manifest)
    = Throw e.
Proof.
  refine (proj2 (unreadable_manifest_aborts_run
                   Sample.libs SampleRuns.world_with_broken_manifest
                   [Sample.root_file; Sample.foo_file] Sample.foo_file
                   eq_refl eq_refl (or_intror (or_introl eq_refl))) _).
  eexists. reflexivity.
Defined.

(** ** Collaborators that fail softly *)

Lemma runNpmCheck_failure
    (L : Libs) (W : World) (packageJsonPath : string) (error : JsError) :
  npmCheck_packages W (path_dirname L packageJsonPath) = Throw error ->
  runNpmCheck L W packageJsonPath
  = ([ LogRunningNpmCheck;
       ErrNpmCheck (path_dirname L packageJsonPath) error ],
     Ok (JArr [])).
Proof. intros H. unfold runNpmCheck. rewrite H. reflexivity. Qed.

(** X11.  When the outdated check fails for a manifest's directory, the
    failure is printed and stands for an empty result: the manifest is
    processed all the same, and every row it adds has "Unknown" for the
    latest and wanted versions and [false] for the two flags. *)
Theorem npmCheck_failure_degrades_rows
    (L : Libs) (W : World) (rootDirName : string) (n i i' : nat)
    (csvData csvData' : list Row) (file : string) (error : JsError) :
  npmCheck_packages W (path_dirname L file) = Throw error ->
  outcome (Newer.processFile L W rootDirName n (i, csvData) file)
  = Ok (i', csvData') ->
  runNpmCheck L W file
  = ([ LogRunningNpmCheck; ErrNpmCheck (path_dirname L file) error ],
     Ok (JArr []))
  /\ exists rows,
       csvData' = csvData ++ rows
       /\ Forall (fun row =>
                    field row "npmLatest" = JStr "Unknown"
                    /\ field row "npmWanted" = JStr "Unknown"
                    /\ field row "easyUpgrade" = JBool false
                    /\ field row "unused" = JBool false)
                 rows.
Proof.
  intros Hfail H. split; [apply runNpmCheck_failure; exact Hfail |].
  apply Newer_processFile_inv in H.
  destruct H as (deps & lrs & results & _ & _ & _ & H).
  destruct H as [(_ & _ & ->) | (_ & _ & Hfold)].
  - exists []. rewrite app_nil_r. split; constructor.
  - rewrite Hfail in Hfold.
    destruct (foldM_rows
                (Newer.joinDependency L lrs (JArr []) results)
                (fun (_ : Dependency) row =>
                   field row "npmLatest" = JStr "Unknown"
                   /\ field row "npmWanted" = JStr "Unknown"
                   /\ field row "easyUpgrade" = JBool false
                   /\ field row "unused" = JBool false)
                deps) with (2 := Hfold) as (rows & -> & Hrows).
    + intros csv dep csv' _ Hjoin. apply Newer_joinDependency_inv in Hjoin.
      destruct Hjoin as (lr & nr & r & row & _ & Hnr & _ & Hrow & ->).
      injection Hnr as <-. exists row. split; [reflexivity |].
      apply Newer_formatDependencyResult_fields in Hrow.
      destruct Hrow as (_ & _ & _ & _ & _ & _ & _ & _ & H1 & H2 & H3 & H4).
      rewrite H1, H2, H3, H4. repeat split.
    + exists rows. split; [reflexivity |].
      apply Forall2_right in Hrows.
      eapply Forall_impl; [| exact Hrows]. cbv beta.
      intros row (_ & _ & Hrow). exact Hrow.
Qed.

Lemma npmCheck_failure_degrades_rows_witness :
  exists row_a row_b,
    outcome (Newer.processFile Sample.libs SampleRuns.world_npmCheck_fails
               "myproj" 2 (1%nat, []) Sample.root_file)
    = Ok (2%nat, [row_a; row_b])
    /\ field row_a "npmLatest" = JStr "Unknown"
    /\ field row_b "unused" = JBool false.
Proof.
  eexists. eexists. split; [reflexivity |].
  destruct (npmCheck_failure_degrades_rows
              Sample.libs SampleRuns.world_npmCheck_fails "myproj" 2 1 2 [] _
              Sample.root_file (HostError "npm-check failed") eq_refl eq_refl)
    as (_ & rows & Hrows & Hall).
  cbn [app] in Hrows. subst rows.
  inversion Hall as [| r rs (Ha & _) Hrest]; subst.
  inversion Hrest as [| r' rs' (_ & _ & _ & Hb) _]; subst.
  split; [exact Ha | exact Hb].
Defined.




(** ** Lookups by name *)

Lemma find_item_skips (key name : string) (before rest : list JsValue) :
  Forall (fun record =>
            nullish record = false
            /\ strict_eq_string (prop_of record key) name = false)
         before ->
  find_item (named key name) (before ++ rest)
  = find_item (named key name) rest.
Proof.
  induction 1 as [| record before' [Hobject Hother] _ IH]; [reflexivity |].
  cbn [app find_item]. unfold named at 1.
  rewrite (outcome_get_prop _ _ Hobject), !bind_ret, Hother. exact IH.
Qed.

(** X13.  A lookup by name returns the first record of the list that bears
    the name: records after it, duplicates of the name and even [null]
    entries among them, are never looked at.  When no record bears the name
    the lookup returns [undefined]. *)
Theorem lookup_first_match_wins
    (key name : string) (before after : list JsValue) (record : JsValue) :
  Forall (fun other =>
            nullish other = false
            /\ strict_eq_string (prop_of other key) name = false)
         before ->
  (nullish record = false ->
   prop_of record key = JStr name ->
   Array_find (JArr (before ++ record :: after)) (named key name) = ret record)
  /\ Array_find (JArr before) (named key name) = ret JUndefined.
Proof.
  intros Hbefore. split.
  - intros Hobject Hname. cbn [Array_find].
    rewrite (find_item_skips _ _ _ _ Hbefore). cbn [find_item].
    unfold named at 1. rewrite (outcome_get_prop _ _ Hobject), !bind_ret.
    rewrite Hname. cbn [strict_eq_string]. rewrite String.eqb_refl.
    reflexivity.
  - cbn [Array_find]. rewrite <- (app_nil_r before).
    rewrite (find_item_skips _ _ _ _ Hbefore). reflexivity.
Qed.

Lemma lookup_first_match_wins_witness :
  Array_find
    (JArr [ JObj [ ("dependency", JStr "b") ];
            JObj [ ("dependency", JStr "a"); ("drift", JNum (Finite 1)) ];
            JNull;
            JObj [ ("dependency", JStr "a"); ("drift", JNum (Finite 2)) ] ])
    (named "dependency" "a")
  = ret (JObj [ ("dependency", JStr "a"); ("drift", JNum (Finite 1)) ]).
Proof.
  refine (proj1 (lookup_first_match_wins "dependency" "a"
                   [ JObj [ ("dependency", JStr "b") ] ]
                   [ JNull;
                     JObj [ ("dependency", JStr "a");
                            ("drift", JNum (Finite 2)) ] ]
                   (JObj [ ("dependency", JStr "a");
                           ("drift", JNum (Finite 1)) ]) _)
                eq_refl eq_refl).
  repeat constructor.
Defined.

(** X14.  A [null] (or [undefined]) entry met before any record of the
    wanted name makes the lookup throw a TypeError, and with it the join of
    that declaration: the callback reads a property of every entry it
    visits. *)
Theorem lookup_throws_on_null_entry
    (L : Libs) (key name : string) (before after : list JsValue)
    (entry : JsValue)
    (npmCheckResults : JsValue)
    (nodeCompatibilityResults : list Newer.NodeCompatibilityResult)
    (csvData : list Row) (dep : Dependency) :
  Forall (fun other =>
            nullish other = false
            /\ strict_eq_string (prop_of other key) name = false)
         before ->
  nullish entry = true ->
  Array_find (JArr (before ++ entry :: after)) (named key name)
  = throw (TypeError "Cannot read properties of undefined or null")
  /\ (key = "dependency" -> name = dependency dep ->
      outcome (Newer.joinDependency L (JArr (before ++ entry :: after))
                 npmCheckResults nodeCompatibilityResults csvData dep)
      = Throw (TypeError "Cannot read properties of undefined or null")).
Proof.
  intros Hbefore Hnull.
  assert (Hfind :
    Array_find (JArr (before ++ entry :: after)) (named key name)
    = throw (TypeError "Cannot read properties of undefined or null")).
  { cbn [Array_find]. rewrite (find_item_skips _ _ _ _ Hbefore).
    cbn [find_item]. unfold named at 1, get_prop. rewrite Hnull. reflexivity. }
  split; [exact Hfind |].
  intros -> ->. unfold Newer.joinDependency. rewrite Hfind. reflexivity.
Qed.

Lemma lookup_throws_on_null_entry_witness :
  outcome (Newer.joinDependency Sample.libs
             (JArr [ JNull; JObj [ ("dependency", JStr "a") ] ])
             (JArr []) [] [] Sample.dep_a)
  = Throw (TypeError "Cannot read properties of undefined or null").
Proof.
  exact (proj2 (lookup_throws_on_null_entry
                  Sample.libs "dependency" "a" []
                  [ JObj [ ("dependency", JStr "a") ] ] JNull
                  (JArr []) [] [] Sample.dep_a (Forall_nil _) eq_refl)
           eq_refl eq_refl).
Defined.

(** ** What makes a row *)

Lemma formatDecimal_throws (L : Libs) (value : JsValue) :
  missing_or_number value = false ->
  formatDecimal L value = throw (TypeError "value.toFixed is not a function").
Proof. destruct value; try discriminate; reflexivity. Qed.

(** X15.  [formatDependencyResult] returns a row exactly when the [drift]
    and the [pulse] of the drift record are each missing or a Number;
    any other value there (a numeral in a string, a boolean, an object)
    makes [formatDecimal] throw a TypeError.  Nothing else in the record, and
    nothing in the outdated-check record, can make it throw. *)
Theorem row_iff_numeric_metrics
    (L : Libs) (dep : Dependency) (libyearDepResult npmCheckResult : JsValue)
    (node16Version node18Version node20Version : string) :
  ((exists row,
       outcome (Newer.formatDependencyResult L dep libyearDepResult
                  npmCheckResult node16Version node18Version node20Version)
       = Ok row)
   <-> missing_or_number (prop_of libyearDepResult "drift") = true
       /\ missing_or_number (prop_of libyearDepResult "pulse") = true)
  /\ ((~ exists row,
          outcome (Newer.formatDependencyResult L dep libyearDepResult
                     npmCheckResult node16Version node18Version node20Version)
          = Ok row) ->
      outcome (Newer.formatDependencyResult L dep libyearDepResult
                 npmCheckResult node16Version node18Version node20Version)
      = Throw (TypeError "value.toFixed is not a function")).
Proof.
  unfold Newer.formatDependencyResult.
  rewrite !(outcome_get_prop _ _ (npmCheckData_not_nullish _)), !bind_ret.
  destruct (missing_or_number (prop_of libyearDepResult "drift")) eqn:Hd.
  - destruct (formatDecimal_returns L _ Hd) as (drift & Hdrift & _).
    rewrite (outcome_bind_Ok _ _ _ Hdrift).
    destruct (missing_or_number (prop_of libyearDepResult "pulse")) eqn:Hp.
    + destruct (formatDecimal_returns L _ Hp) as (pulse & Hpulse & _).
      rewrite (outcome_bind_Ok _ _ _ Hpulse). cbn [outcome ret snd].
      split; [split; [auto | intros _; eexists; reflexivity] |].
      intros Hno. exfalso. apply Hno. eexists. reflexivity.
    + rewrite (formatDecimal_throws L _ Hp).
      split; [split; [intros [row H]; discriminate H
                     | intros [_ H]; discriminate H] |].
      reflexivity.
  - rewrite (formatDecimal_throws L _ Hd).
    split; [split; [intros [row H]; discriminate H
                   | intros [H _]; discriminate H] |].
    reflexivity.
Qed.

Example textual_drift_throws :
  outcome (Newer.formatDependencyResult Sample.libs Sample.dep_a
             (JObj [ ("dependency", JStr "a"); ("drift", JStr "1.5") ])
             JUndefined "N/A" "N/A" "N/A")
  = Throw (TypeError "value.toFixed is not a function").
Proof. reflexivity. Qed.

(** ** Edges of the decimal format *)

Lemma hundredths_of_integer (k : Z) :
  hundredths (inject_Z k) = (100 * Z.abs k)%Z.
Proof.
  unfold hundredths, inject_Z. cbn [Qnum Qden].
  symmetry. apply (Z.div_unique _ _ _ 1); lia.
Qed.

Lemma fixed2_of_hundreds (a : Z) (sep : string) :
  fixed2 (100 * a) sep = (decimal a ++ sep ++ "00")%string.
Proof.
  unfold fixed2.
  replace (100 * a / 100)%Z with a
    by (rewrite Z.mul_comm, Z.div_mul; lia).
  replace (100 * a / 10 mod 10)%Z with 0%Z.
  - replace (100 * a mod 10)%Z with 0%Z; [reflexivity |].
    replace (100 * a)%Z with (10 * a * 10)%Z by lia.
    rewrite Z.mod_mul; lia.
  - replace (100 * a)%Z with (10 * a * 10)%Z by lia.
    rewrite Z.div_mul by lia.
    rewrite Z.mul_comm, Z.mod_mul; lia.
Qed.

(** X16.  A whole number (a count of years, say) is rendered with its
    digits, a comma and two zeros, after a minus sign when it is negative;
    zero is "0,00". *)
Theorem formatDecimal_of_integer (L : Libs) (k : Z) :
  (Z.abs k < 10 ^ 21)%Z ->
  formatDecimal L (JNum (Finite (inject_Z k)))
  = ret (JStr ((if (k <? 0)%Z then "-" else "") ++ decimal (Z.abs k) ++ ",00")).
Proof.
  intros Hrange. rewrite formatDecimal_finite.
  - rewrite hundredths_of_integer, fixed2_of_hundreds. reflexivity.
  - unfold Qabs_lt_1e21, inject_Z. cbn [Qnum Qden]. apply Z.ltb_lt. lia.
Qed.

Lemma formatDecimal_of_integer_witness :
  formatDecimal Sample.libs (JNum (Finite (inject_Z (-12)))) = ret (JStr "-12,00").
Proof.
  exact (formatDecimal_of_integer Sample.libs (-12) eq_refl).
Defined.

(** X17.  A negative value too small to show in two decimals (above
    [-0.005]) keeps its sign: it is rendered "-0,00", not "0,00". *)
Theorem formatDecimal_small_negative (L : Libs) (q : Q) :
  - (1 # 200) < q -> q < 0 ->
  formatDecimal L (JNum (Finite q)) = ret (JStr "-0,00").
Proof.
  destruct q as [num den]. unfold Qlt. cbn [Qnum Qden Qopp]. intros Hlow Hneg.
  assert (Hnum : (num < 0)%Z) by lia.
  rewrite formatDecimal_finite.
  - unfold sign_of, hundredths. cbn [Qnum Qden].
    destruct (Z.ltb_spec num 0) as [_ | Hge]; [| lia].
    rewrite Z.div_small by lia. reflexivity.
  - unfold Qabs_lt_1e21. cbn [Qnum Qden]. apply Z.ltb_lt. lia.
Qed.

Lemma formatDecimal_small_negative_witness :
  formatDecimal Sample.libs (JNum (Finite (- (1 # 1000)))) = ret (JStr "-0,00").
Proof.
  exact (formatDecimal_small_negative Sample.libs (- (1 # 1000))
           eq_refl eq_refl).
Defined.

(** ** The two revisions side by side *)

Lemma findLatestCompatibleVersion_returns_for_every_range
    (L : Libs) (npmData : JsValue) (nodeVersion nodeVersion' v : string) :
  outcome (findLatestCompatibleVersion L npmData nodeVersion) = Ok v ->
  exists v', outcome (findLatestCompatibleVersion L npmData nodeVersion') = Ok v'.
Proof.
  intros H. apply findLatestCompatibleVersion_returns.
  destruct (truthy npmData) eqn:Htruthy; [right | left; reflexivity].
  destruct (nullish (prop_of npmData "versions")) eqn:Hversions;
    [| reflexivity].
  rewrite (findLatestCompatibleVersion_throws L _ _ Htruthy Hversions) in H.
  discriminate H.
Qed.

(** X18.  The two revisions resolve a package alike: one returns exactly
    when the other does, and then their columns for Node 16, 18 and 20 are
    the same; the older one only adds the column for Node 14. *)
Theorem revisions_resolve_alike (L : Libs) (W : World) (packageName : string) :
  (forall older,
      outcome (Older.findNodeCompatibility L W packageName) = Ok older ->
      outcome (Newer.findNodeCompatibility L W packageName)
      = Ok {| Newer.node16Version := Older.node16 older;
              Newer.node18Version := Older.node18 older;
              Newer.node20Version := Older.node20 older |})
  /\ (forall newer,
        outcome (Newer.findNodeCompatibility L W packageName) = Ok newer ->
        exists older,
          outcome (Older.findNodeCompatibility L W packageName) = Ok older
          /\ Older.node16 older = Newer.node16Version newer
          /\ Older.node18 older = Newer.node18Version newer
          /\ Older.node20 older = Newer.node20Version newer).
Proof.
  unfold Older.findNodeCompatibility, Newer.findNodeCompatibility.
  rewrite fetchNpmPackageInfo_total, !bind_ret.
  set (npmData := match axios_get W (registry_url packageName) with
                  | Ok data => data
                  | Throw _ => JStr "N/A"
                  end).
  destruct (negb (truthy npmData) || strict_eq_string npmData "N/A").
  - split.
    + intros older H. injection H as <-. reflexivity.
    + intros newer H. injection H as <-. eexists. split; [reflexivity |].
      repeat split.
  - split.
    + intros older H.
      apply outcome_bind_inv in H. destruct H as (v14 & _ & H).
      apply outcome_bind_inv in H. destruct H as (v16 & H16 & H).
      apply outcome_bind_inv in H. destruct H as (v18 & H18 & H).
      apply outcome_bind_inv in H. destruct H as (v20 & H20 & H).
      injection H as <-.
      rewrite (outcome_bind_Ok _ _ _ H16), (outcome_bind_Ok _ _ _ H18),
        (outcome_bind_Ok _ _ _ H20).
      reflexivity.
    + intros newer H.
      apply outcome_bind_inv in H. destruct H as (v16 & H16 & H).
      apply outcome_bind_inv in H. destruct H as (v18 & H18 & H).
      apply outcome_bind_inv in H. destruct H as (v20 & H20 & H).
      injection H as <-.
      destruct (findLatestCompatibleVersion_returns_for_every_range
                  L npmData "^16.0.0" "^14.0.0" v16 H16) as [v14 H14].
      eexists.
      rewrite (outcome_bind_Ok _ _ _ H14), (outcome_bind_Ok _ _ _ H16),
        (outcome_bind_Ok _ _ _ H18), (outcome_bind_Ok _ _ _ H20).
      split; [reflexivity | repeat split].
Qed.

Lemma revisions_resolve_alike_witness :
  outcome (Newer.findNodeCompatibility Sample.libs Sample.world "a")
  = Ok {| Newer.node16Version := "2.0.0"; Newer.node18Version := "2.0.0";
          Newer.node20Version := "2.0.0" |}.
Proof.
  exact (proj1 (revisions_resolve_alike Sample.libs Sample.world "a")
           {| Older.node14 := "1.0.0"; Older.node16 := "2.0.0";
              Older.node18 := "2.0.0"; Older.node20 := "2.0.0" |} eq_refl).
Defined.

(** X19.  In the older revision too a row has the header's columns in the
    header's order.  For the same declaration and the same records, the two
    revisions give rows that agree on every column they share, the older
    columns [node16], [node18], [node20] being the newer [node16Version],
    [node18Version], [node20Version]. *)
Theorem revisions_rows_agree
    (L : Libs) (dep : Dependency) (libyearDepResult npmCheckResult : JsValue)
    (node14 node16 node18 node20 : string) (older : Row) :
  outcome (Older.formatDependencyResult L dep libyearDepResult npmCheckResult
             node14 node16 node18 node20) = Ok older ->
  map fst older = map fst Older.header
  /\ exists newer,
       outcome (Newer.formatDependencyResult L dep libyearDepResult
                  npmCheckResult node16 node18 node20) = Ok newer
       /\ (forall id,
              In id [ "module"; "dependency"; "type"; "currentVersion";
                      "latestVersion"; "npmLatest"; "npmWanted";
                      "easyUpgrade"; "unused"; "drift"; "pulse"; "releases";
                      "major"; "minor"; "patch" ] ->
              field older id = field newer id)
       /\ field older "node16" = field newer "node16Version"
       /\ field older "node18" = field newer "node18Version"
       /\ field older "node20" = field newer "node20Version".
Proof.
  intros H. unfold Older.formatDependencyResult in H.
  invert_row H drift Hdrift pulse Hpulse.
  split; [reflexivity |]. eexists. split.
  - unfold Newer.formatDependencyResult.
    rewrite !(outcome_get_prop _ _ (npmCheckData_not_nullish _)), !bind_ret.
    rewrite (outcome_bind_Ok _ _ _ Hdrift), (outcome_bind_Ok _ _ _ Hpulse).
    reflexivity.
  - split; [| repeat split].
    intros id Hid.
    repeat (destruct Hid as [<- | Hid]; [reflexivity |]). destruct Hid.
Qed.

Lemma revisions_rows_agree_witness :
  exists older newer,
    outcome (Older.formatDependencyResult Sample.libs Sample.dep_b
               JUndefined JUndefined "N/A" "N/A" "N/A" "N/A") = Ok older
    /\ outcome (Newer.formatDependencyResult Sample.libs Sample.dep_b
                  JUndefined JUndefined "N/A" "N/A" "N/A") = Ok newer
    /\ field older "drift" = field newer "drift".
Proof.
  eexists.
  destruct (revisions_rows_agree Sample.libs Sample.dep_b JUndefined
              JUndefined "N/A" "N/A" "N/A" "N/A" _ eq_refl)
    as (_ & newer & Hnewer & Hsame & _).
  exists newer. split; [reflexivity |]. split; [exact Hnewer |].
  apply Hsame. cbn. tauto.
Defined.

(** ** What the compatibility filter prints *)





(** ** The loop, from its first manifest to its last *)

Lemma main_throws_at
    (L : Libs) (W : World) (files : list string) (file : string) :
  fs_existsSync W (rootDir_of W) = true ->
  located W (rootDir_of W) = Ok files ->
  In file files ->
  (forall state,
      exists e,
        outcome (Newer.processFile L W (path_basename L (rootDir_of W))
                   (List.length files) state file) = Throw e) ->
  exists e, outcome (Newer.main L W) = Throw e.
Proof.
  intros Hexists Hlocated Hin Hthrows. unfold Newer.main.
  rewrite outcome_console, Hexists. cbn [negb].
  rewrite bind_ret, Hlocated.
  change (lift (Ok files)) with (ret files). rewrite bind_ret.
  destruct (foldM_throws _ file files Hin Hthrows (1%nat, @nil Row))
    as [e He].
  exists e. apply outcome_bind_Throw. exact He.
Qed.

(** X21.  When the [libyear] process ends without error and without
    diagnostics but its standard output is not JSON, [JSON.parse] throws in
    the callback; for a located manifest the whole run then ends in that
    exception, without a report. *)
Theorem unparsable_libyear_output_aborts_run
    (L : Libs) (W : World) (files : list string) (file : string)
    (error : JsError) :
  fs_existsSync W (rootDir_of W) = true ->
  located W (rootDir_of W) = Ok files ->
  In file files ->
  exec_error (exec_libyear W (path_dirname L file)) = None ->
  exec_stderr (exec_libyear W (path_dirname L file)) = "" ->
  exec_stdout_json (exec_libyear W (path_dirname L file)) = Throw error ->
  runLibyearAnalysis L W file = ([LogRunningLibyear], Throw error)
  /\ exists e, outcome (Newer.main L W) = Throw e.
Proof.
  intros Hexists Hlocated Hin Hnoerror Hquiet Hstdout.
  assert (Hrun : runLibyearAnalysis L W file = ([LogRunningLibyear], Throw error))
    by (unfold runLibyearAnalysis; rewrite Hnoerror, Hquiet, Hstdout;
        reflexivity).
  split; [exact Hrun |].
  apply (main_throws_at L W files file Hexists Hlocated Hin).
  intros [i csvData]. unfold Newer.processFile.
  rewrite outcome_console, outcome_bind.
  destruct (outcome (analyzeDependencies L W file
                       (path_basename L (rootDir_of W)))) as [deps | e];
    [| exists e; reflexivity].
  rewrite Hrun. exists error. reflexivity.
Qed.

Lemma unparsable_libyear_output_aborts_run_witness :
  exists e,
    outcome (Newer.main Sample.libs SampleRuns.world_with_banner) = Throw e.
Proof.
  exact (proj2 (unparsable_libyear_output_aborts_run
                  Sample.libs SampleRuns.world_with_banner
                  [Sample.root_file; Sample.foo_file] Sample.root_file
                  (SyntaxError "Unexpected token u in JSON at position 0")
                  eq_refl eq_refl (or_introl eq_refl)
                  eq_refl eq_refl eq_refl)).
Defined.

Lemma Newer_processFile_counts
    (L : Libs) (W : World) (rootDirName : string) (n i i' : nat)
    (csvData csvData' : list Row) (file : string) :
  outcome (Newer.processFile L W rootDirName n (i, csvData) file)
  = Ok (i', csvData') ->
  i' = (i + if yields_list L W file then 1 else 0)%nat
  /\ List.length csvData'
     = (List.length csvData
        + if yields_list L W file
          then List.length (declared L W rootDirName file)
          else 0)%nat.
Proof.
  intros H. pose proof (Newer_processFile_rows _ _ _ _ _ _ _ _ _ H) as Hrows.
  apply Newer_processFile_inv in H.
  destruct H as (deps & lrs & results & Hdeps & Hlrs & _ & H).
  destruct Hrows as (deps' & Hdeps' & Hrows).
  rewrite Hdeps in Hdeps'. injection Hdeps' as <-.
  unfold yields_list, declared. rewrite Hlrs, Hdeps.
  destruct H as [(Hnotlist & -> & ->) | (Hlist & -> & Hfold)].
  - destruct lrs; try discriminate Hnotlist; split; lia.
  - destruct lrs; try discriminate Hlist.
    destruct Hrows as [(Hi & _) | (_ & rows & -> & Hrows)]; [exfalso; lia |].
    pose proof (Forall2_length Hrows) as Hlen.
    rewrite length_app. unfold Row in *. split; lia.
Qed.

(** X22.  Whenever the loop over the manifests runs to its end, its
    counter has advanced by the number of manifests whose drift analysis
    yielded a list (so the number printed for a manifest is not its
    position once a manifest was skipped), and its buffer has grown by one
    row per declaration of each of those manifests, and by nothing else. *)
Theorem loop_counts_manifests_and_rows
    (L : Libs) (W : World) (rootDirName : string) (n : nat)
    (files : list string) (i i' : nat) (csvData csvData' : list Row) :
  outcome (foldM (Newer.processFile L W rootDirName n) files (i, csvData))
  = Ok (i', csvData') ->
  i' = (i + List.length (filter (yields_list L W) files))%nat
  /\ List.length csvData'
     = (List.length csvData + rows_due L W rootDirName files)%nat.
Proof.
  revert i csvData. induction files as [| file rest IH]; intros i csvData H.
  - injection H as <- <-. unfold rows_due. cbn. split; lia.
  - cbn [foldM] in H. apply outcome_bind_inv in H.
    destruct H as ([i1 csv1] & Hfile & H).
    destruct (Newer_processFile_counts _ _ _ _ _ _ _ _ _ Hfile) as (-> & Hlen).
    destruct (IH _ _ H) as (-> & Hlen').
    unfold rows_due in *. cbn [filter map].
    match goal with
    | |- context [list_sum (?a :: ?l)] =>
        change (list_sum (a :: l)) with (a + list_sum l)%nat
    end.
    revert Hlen.
    destruct (yields_list L W file); intros Hlen; cbn [List.length];
      unfold Row in *; split; lia.
Qed.

Lemma loop_counts_manifests_and_rows_witness :
  exists csvData',
    outcome (foldM (Newer.processFile Sample.libs Sample.world "myproj" 2)
               [Sample.root_file; Sample.foo_file] (1%nat, []))
    = Ok (2%nat, csvData')
    /\ List.length csvData' = 2%nat.
Proof.
  eexists. split; [reflexivity |].
  exact (proj2 (loop_counts_manifests_and_rows
                  Sample.libs Sample.world "myproj" 2
                  [Sample.root_file; Sample.foo_file] 1 2 [] _ eq_refl)).
Defined.
